(** * pydantic-ai examples: bank support agent, weather agent, city model

    A shallow embedding of the three example scripts
    ([bank-support/bank_support_agent.py], [weather-agent/weather_agent.py],
    [pydantic-model/main.py]) together with the properties their
    specification states about them.

    Python values are modelled as they are at run time: [int] is an
    unbounded integer ([Z]), [float] is a binary64 number (primitive
    [float], read exactly through [Prim2SF]), [dict] literals are finite
    maps ([gmap]), decoded JSON is a tagged value.  Raising is an explicit
    outcome, and handlers run in a small state monad whose store holds the
    dependency object of the run and a ghost trace of the calls made to
    the external collaborators (database, HTTP). *)

From Stdlib Require Import ZArith String Ascii Floats.
From stdpp Require Import base option list gmap strings fin_maps pretty.

Open Scope string_scope.
Open Scope list_scope.
Open Scope Z_scope.

(** ** Python values *)

Inductive PyNum :=
| PyInt (z : Z)
| PyFloat (f : float).

#[warnings="-register-all"]
Inductive JVal :=
| JNull
| JBool (b : bool)
| JNum (n : PyNum)
| JStr (s : string)
| JList (l : list JVal)
| JObj (m : gmap string JVal).

(** Exceptions are identified by their class; the message is kept where the
    scripts supply one. *)
Inductive PyExn :=
| ValueError (msg : string)
| ModelRetry (msg : string)
| KeyError (key : JVal)
| IndexError
| TypeError
| OverflowError
| HTTPStatusError (status : Z)
| JSONDecodeError
| TransportError (msg : string).

(** [ModelRetry] is the signal by which a handler asks the model to try
    again; every other exception is an ordinary error. *)
Definition is_soft_retry (e : PyExn) : bool :=
  match e with
  | ModelRetry _ => true
  | _ => false
  end.

Inductive Outcome (A : Type) :=
| Ok (a : A)
| Raise (e : PyExn).
Arguments Ok {A} a.
Arguments Raise {A} e.

(** ** Built-in conversions to text *)

(** [str(n)] for an [int]. *)
Definition str_int (z : Z) : string := pretty z.

Definition digit_char (d : Z) : ascii :=
  ascii_of_N (48 + Z.to_N (d mod 10)).

(** The [p] low decimal digits of [n], most significant first. *)
Fixpoint fixed_digits (p : nat) (n : Z) : string :=
  match p with
  | O => EmptyString
  | S p' => fixed_digits p' (n / 10) +:+ String (digit_char n) EmptyString
  end.

(** [n / d] rounded to the nearest integer, ties to even ([0 <= n], [0 < d]). *)
Definition round_half_even (n d : Z) : Z :=
  let q := n / d in
  match 2 * (n mod d) ?= d with
  | Lt => q
  | Gt => q + 1
  | Eq => if Z.even q then q else q + 1
  end.

(** The magnitude [m * 2^e], scaled by [10^p] and correctly rounded. *)
Definition scaled (p : nat) (m : positive) (e : Z) : Z :=
  let n := Z.pos m * 10 ^ Z.of_nat p in
  if 0 <=? e then n * 2 ^ e else round_half_even n (2 ^ (- e)).

Definition render_fixed (p : nat) (n : Z) : string :=
  str_int (n / 10 ^ Z.of_nat p) +:+
  match p with
  | O => EmptyString
  | S _ => "." +:+ fixed_digits p n
  end.

Definition sign_str (s : bool) : string := if s then "-" else EmptyString.

(** The presentation type ['f'] with precision [p] ([format(x, '.pf')]):
    fixed point, [p] digits after the point, correctly rounded. *)
Definition format_f (p : nat) (x : spec_float) : string :=
  match x with
  | S754_nan => "nan"
  | S754_infinity s => sign_str s +:+ "inf"
  | S754_zero s => sign_str s +:+ render_fixed p 0
  | S754_finite s m e => sign_str s +:+ render_fixed p (scaled p m e)
  end.

(** [float(n)] for an [int]: nearest binary64, ties to even. *)
Definition float_of_int (z : Z) : spec_float :=
  binary_normalize 53 1024 z 0 false.

(** The [float] a number is passed as where a [float] is declared. *)
Definition py_float (x : PyNum) : float :=
  match x with
  | PyFloat f => f
  | PyInt z => SF2Prim (float_of_int z)
  end.

(** ['f'] formatting of a number; an [int] is converted to [float] first. *)
Definition py_format_f (p : nat) (x : PyNum) : Outcome string :=
  match x with
  | PyFloat f => Ok (format_f p (Prim2SF f))
  | PyInt z =>
      match float_of_int z with
      | S754_infinity _ => Raise OverflowError
      | sf => Ok (format_f p sf)
      end
  end.

Definition hex_digit (n : N) : ascii :=
  if (n <? 10)%N then ascii_of_N (48 + n) else ascii_of_N (87 + n).

Fixpoint contains_char (c : ascii) (s : string) : bool :=
  match s with
  | EmptyString => false
  | String a s' => if Ascii.eqb a c then true else contains_char c s'
  end.

Definition single_quote : ascii := "'"%char.
Definition double_quote : ascii := ascii_of_N 34.
Definition backslash : ascii := "\"%char.

Fixpoint repr_body (q : ascii) (s : string) : string :=
  match s with
  | EmptyString => EmptyString
  | String a s' =>
      let n := N_of_ascii a in
      (if Ascii.eqb a q || Ascii.eqb a backslash then String backslash (String a EmptyString)
       else if (n =? 9)%N then String backslash "t"
       else if (n =? 10)%N then String backslash "n"
       else if (n =? 13)%N then String backslash "r"
       else if (n <? 32)%N || (n =? 127)%N then
         String backslash (String "x" (String (hex_digit (n / 16)) (String (hex_digit (n mod 16)) EmptyString)))
       else String a EmptyString) +:+ repr_body q s'
  end.

(** [repr(s)] for a [str] (the [!r] conversion).  Strings hold UTF-8 bytes;
    bytes above 127 belong to printable characters and are kept. *)
Definition repr_str (s : string) : string :=
  let q := if contains_char single_quote s && negb (contains_char double_quote s)
           then double_quote else single_quote in
  String q (repr_body q s) +:+ String q EmptyString.

Definition is_digit (c : ascii) : bool :=
  ((48 <=? N_of_ascii c) && (N_of_ascii c <=? 57))%N.

Fixpoint all_digits (s : string) : bool :=
  match s with
  | EmptyString => true
  | String c s' => is_digit c && all_digits s'
  end.

(** Recogniser of a dollar amount written with exactly two decimal places:
    ["$"], one or more digits, ["."], two digits. *)
Definition two_decimal_dollars (s : string) : bool :=
  match s with
  | String c rest =>
      let n := String.length rest in
      Ascii.eqb c "$"%char
      && (4 <=? n)%nat
      && all_digits (String.substring 0 (n - 3) rest)
      && String.eqb (String.substring (n - 3) 1 rest) "."
      && all_digits (String.substring (n - 2) 2 rest)
  | EmptyString => false
  end.

(** ** Effects: the run's store and the handler monad *)

(** Ghost record of the calls a handler makes to external collaborators. *)
Inductive Event :=
| DbCustomerName (id : Z)
| DbCustomerBalance (id : Z) (include_pending : bool)
| HttpGet (url : string) (params : list (string * string)).

(** The store of a run: the dependency object ([ctx.deps]), which handlers
    receive by reference, and the ghost trace. *)
Record Store (D : Type) := mkStore { deps : D; trace : list Event }.
Arguments mkStore {D} deps trace.
Arguments deps {D} s.
Arguments trace {D} s.

(** A handler: from the store to an outcome (a value or a raised exception)
    and the store it leaves. *)
Definition Eff (D A : Type) : Type := Store D → Outcome A * Store D.

Definition ret {D A} (a : A) : Eff D A := λ s, (Ok a, s).
Definition raise {D A} (e : PyExn) : Eff D A := λ s, (Raise e, s).
Definition bind {D A B} (m : Eff D A) (k : A → Eff D B) : Eff D B :=
  λ s, match m s with
       | (Ok a, s') => k a s'
       | (Raise e, s') => (Raise e, s')
       end.
Definition lift {D A} (o : Outcome A) : Eff D A := λ s, (o, s).
Definition get_deps {D} : Eff D D := λ s, (Ok (deps s), s).
Definition emit {D} (ev : Event) : Eff D unit :=
  λ s, (Ok tt, mkStore (deps s) (trace s ++ [ev])).

Notation "x <~ m ;; k" := (bind m (λ x, k))
  (at level 100, m at next level, right associativity).
Notation "m ;;; k" := (bind m (λ _, k))
  (at level 100, right associativity).

(** [k in d] and [d[k]] on a dict with integer keys. *)
Definition dict_contains {V} (d : gmap Z V) (k : Z) : bool :=
  bool_decide (is_Some (d !! k)).
Definition dict_getitem {V} (d : gmap Z V) (k : Z) : Outcome V :=
  match d !! k with
  | Some v => Ok v
  | None => Raise (KeyError (JNum (PyInt k)))
  end.

(** ** bank-support/bank_support_agent.py *)

(** The class methods of [DatabaseConn].  Each call builds its table afresh
    as a local; the [emit] records the call with its arguments. *)
Module DatabaseConn.

Definition customer_name_and_id : gmap Z string :=
  {[ 1 := "John"; 2 := "Trump"; 3 := "Praveen"; 4 := "Lucky" ]}.

Definition customer_name {D} (id : Z) : Eff D string :=
  emit (DbCustomerName id) ;;;
  if dict_contains customer_name_and_id id
  then lift (dict_getitem customer_name_and_id id)
  else raise (ValueError ("Customer not found with the given id :- " +:+ str_int id)).

#[warnings="-inexact-float"]
Definition account_balance : gmap Z PyNum :=
  {[ 1 := PyFloat 100.0%float;
     2 := PyFloat 123.45%float;
     3 := PyInt 342;
     4 := PyInt 10 ]}.

Definition customer_balance {D} (id : Z) (include_pending : bool) : Eff D PyNum :=
  emit (DbCustomerBalance id include_pending) ;;;
  if dict_contains account_balance id && include_pending
  then lift (dict_getitem account_balance id)
  else raise (ValueError "Customer not found").

End DatabaseConn.

(** An instance of the class: it has no attributes. *)
Inductive DatabaseConn := DatabaseConnInstance.

Record SupportDependencies := mkSupportDependencies {
  customer_id : Z;
  db : DatabaseConn
}.

(** [@support_agent.system_prompt] *)
Definition add_customer_name : Eff SupportDependencies string :=
  d <~ get_deps ;;
  customer_name <~ DatabaseConn.customer_name (customer_id d) ;;
  ret ("The customer's name is " +:+ repr_str customer_name).

(** [@support_agent.tool] "Returns the customer's current account balance." *)
Definition customer_balance (include_pending : bool) : Eff SupportDependencies string :=
  d <~ get_deps ;;
  balance <~ DatabaseConn.customer_balance (customer_id d) true ;;
  s <~ lift (py_format_f 2 balance) ;;
  ret ("$" +:+ s).

(** A declared model: each field has a name and a declared type; an [int]
    field may carry inclusive bounds ([ge], [le]). *)
Inductive FieldType :=
| TStr
| TBool
| TInt (ge le : option Z)
| TFloat.

Record FieldSpec := mkField {
  field_name : string;
  field_type : FieldType
}.

Abbreviation Schema := (list FieldSpec).

Definition SupportResult : Schema :=
  [ mkField "support_advice" TStr;
    mkField "block_card" TBool;
    mkField "risk" (TInt (Some 0) (Some 10)) ].

(** ** pydantic-model/main.py *)

Definition MyModel : Schema :=
  [ mkField "city" TStr;
    mkField "state" TStr;
    mkField "country" TStr;
    mkField "population" TStr ].

(** ** Operations on decoded JSON *)

(** Truth value of an object, as tested by [if data:]. *)
Definition py_truthy (v : JVal) : bool :=
  match v with
  | JNull => false
  | JBool b => b
  | JNum (PyInt z) => negb (z =? 0)
  | JNum (PyFloat f) =>
      match Prim2SF f with S754_zero _ => false | _ => true end
  | JStr s => negb (String.eqb s EmptyString)
  | JList l => match l with [] => false | _ => true end
  | JObj m => negb (bool_decide (m = ∅))
  end.

(** [v[i]] for an integer index.  A JSON object has string keys only, so an
    integer key is never found. *)
Definition py_getitem_int (v : JVal) (i : Z) : Outcome JVal :=
  match v with
  | JList l =>
      let n := Z.of_nat (length l) in
      let j := if i <? 0 then i + n else i in
      if (0 <=? j) && (j <? n)
      then match l !! Z.to_nat j with Some x => Ok x | None => Raise IndexError end
      else Raise IndexError
  | JStr s =>
      let n := Z.of_nat (String.length s) in
      let j := if i <? 0 then i + n else i in
      if (0 <=? j) && (j <? n)
      then Ok (JStr (String.substring (Z.to_nat j) 1 s))
      else Raise IndexError
  | JObj _ => Raise (KeyError (JNum (PyInt i)))
  | _ => Raise TypeError
  end.

(** [v[k]] for a string key. *)
Definition py_getitem_str (v : JVal) (k : string) : Outcome JVal :=
  match v with
  | JObj m => match m !! k with Some x => Ok x | None => Raise (KeyError (JStr k)) end
  | _ => Raise TypeError
  end.

(** The integer a float equals, when it equals one. *)
Definition sf_integral (x : spec_float) : option Z :=
  match x with
  | S754_zero _ => Some 0
  | S754_finite s m e =>
      let sgn := if s then -1 else 1 in
      if 0 <=? e then Some (sgn * (Z.pos m * 2 ^ e))
      else if Z.pos m mod 2 ^ (- e) =? 0 then Some (sgn * (Z.pos m / 2 ^ (- e)))
      else None
  | _ => None
  end.

(** Lists and dicts are unhashable and cannot be used as a key. *)
Definition hashable (k : JVal) : bool :=
  match k with
  | JList _ | JObj _ => false
  | _ => true
  end.

(** The integer a key object compares equal to, if any: numbers compare by
    value ([True == 1], [1000.0 == 1000]); [None] and strings equal no
    integer. *)
Definition key_int (k : JVal) : option Z :=
  match k with
  | JNum (PyInt z) => Some z
  | JNum (PyFloat f) => sf_integral (Prim2SF f)
  | JBool b => Some (if b then 1 else 0)
  | _ => None
  end.

(** [d.get(k, default)] on a dict with integer keys and an arbitrary key
    object. *)
Definition dict_get {V} (d : gmap Z V) (k : JVal) (default : V) : Outcome V :=
  if hashable k
  then Ok (from_option id default (key_int k ≫= λ z, d !! z))
  else Raise TypeError.

(** [format(v, '.pf')] on a decoded value; [bool] formats as the [int] it is. *)
Definition py_format_f_val (p : nat) (v : JVal) : Outcome string :=
  match v with
  | JNum n => py_format_f p n
  | JBool b => py_format_f p (PyInt (if b then 1 else 0))
  | JStr _ => Raise (ValueError "Unknown format code 'f' for object of type 'str'")
  | _ => Raise TypeError
  end.

(** ** weather-agent/weather_agent.py *)

Record HttpResponse := mkHttpResponse {
  status_code : Z;
  (* the decoded body; [None] when the body is not JSON *)
  body : option JVal
}.

(** The HTTP client handle: what a GET of a URL with query parameters
    yields (a response, or a transport failure). *)
Record AsyncClient := mkAsyncClient {
  client_get : string → list (string * string) → Outcome HttpResponse
}.

Record WeatherAgentDep := mkWeatherAgentDep {
  client : AsyncClient;
  weather_api_key : option string;
  geo_api_key : option string
}.

(** [await ctx.deps.client.get(url, params=params)].  The tracing around it
    ([logfire.span], [span.set_attribute]) only reports and is left out. *)
Definition http_get (url : string) (params : list (string * string))
  : Eff WeatherAgentDep HttpResponse :=
  d <~ get_deps ;;
  emit (HttpGet url params) ;;;
  lift (client_get (client d) url params).

(** [r.raise_for_status()]: any status outside 2xx raises. *)
Definition raise_for_status {D} (r : HttpResponse) : Eff D unit :=
  if (200 <=? status_code r) && (status_code r <=? 299)
  then ret tt
  else raise (HTTPStatusError (status_code r)).

(** [r.json()] *)
Definition json {D} (r : HttpResponse) : Eff D JVal :=
  match body r with
  | Some v => ret v
  | None => raise JSONDecodeError
  end.

(** [@weather_agent.tool] "Get latitude and longitude from a location
    description." *)
Definition get_lat_lng (location_description : string) : Eff WeatherAgentDep JVal :=
  d <~ get_deps ;;
  match geo_api_key d with
  | None => raise (ValueError "Geo API key is required")
  | Some key =>
      let params := [("q", location_description); ("api_key", key)] in
      r <~ http_get "https://geocode.maps.co/search" params ;;
      raise_for_status r ;;;
      data <~ json r ;;
      if py_truthy data then
        e <~ lift (py_getitem_int data 0) ;;
        lat <~ lift (py_getitem_str e "lat") ;;
        e' <~ lift (py_getitem_int data 0) ;;
        lon <~ lift (py_getitem_str e' "lon") ;;
        ret (JObj {[ "lat" := lat; "lng" := lon ]})
      else raise (ModelRetry "Could not find the location")
  end.

(** https://docs.tomorrow.io/reference/data-layers-weather-codes *)
Definition code_lookup : gmap Z string :=
  list_to_map
    [ (1000, "Clear, Sunny");
      (1100, "Mostly Clear");
      (1101, "Partly Cloudy");
      (1102, "Mostly Cloudy");
      (1001, "Cloudy");
      (2000, "Fog");
      (2100, "Light Fog");
      (4000, "Drizzle");
      (4001, "Rain");
      (4200, "Light Rain");
      (4201, "Heavy Rain");
      (5000, "Snow");
      (5001, "Flurries");
      (5100, "Light Snow");
      (5101, "Heavy Snow");
      (6000, "Freezing Drizzle");
      (6001, "Freezing Rain");
      (6200, "Light Freezing Rain");
      (6201, "Heavy Freezing Rain");
      (7000, "Ice Pellets");
      (7101, "Heavy Ice Pellets");
      (7102, "Light Ice Pellets");
      (8000, "Thunderstorm") ].

Section GetWeather.

(** [str(x)] for a [float] (shortest text that reads back as [x]); only the
    query string sent to the weather API depends on it. *)
Variable str_float : float → string.

(** [@weather_agent.tool] "Get weather data from a latitude and
    longitude." *)
Definition get_weather (lat lng : float) : Eff WeatherAgentDep JVal :=
  d <~ get_deps ;;
  match weather_api_key d with
  | None => raise (ValueError "Weather API key is required")
  | Some key =>
      let params := [ ("apikey", key);
                      ("location", str_float lat +:+ "," +:+ str_float lng);
                      ("units", "metric") ] in
      r <~ http_get "https://api.tomorrow.io/v4/weather/realtime" params ;;
      raise_for_status r ;;;
      data <~ json r ;;
      data_data <~ lift (py_getitem_str data "data") ;;
      values <~ lift (py_getitem_str data_data "values") ;;
      temperatureApparent <~ lift (py_getitem_str values "temperatureApparent") ;;
      temperature <~ lift (py_format_f_val 0 temperatureApparent) ;;
      weatherCode <~ lift (py_getitem_str values "weatherCode") ;;
      description <~ lift (dict_get code_lookup weatherCode "Unknown") ;;
      ret (JObj {[ "temperature" := JStr (temperature +:+ "°C");
                   "description" := JStr description ]})
  end.

End GetWeather.

(** ** The agent framework: validation of the final answer

    The scripts build their agents on an agent library whose code is not
    part of the repository's sources.  Its validator and run loop are
    modelled here from the specification; the two agents further down are
    the ones the scripts construct. *)

(** Modelled from the spec: the validator's description of a failure, naming
    the offending field and the reason (section 4.4; the validator is not
    part of the example scripts). *)
Inductive FieldError :=
| FieldMissing (name : string)
| FieldWrongType (name : string)
| FieldOutOfBounds (name : string)
| NotAnObject
| NotText.

(** Modelled from the spec: "of the declared type" (section 4.4; the
    validator is not part of the example scripts). *)
Definition has_type (t : FieldType) (v : JVal) : bool :=
  match t, v with
  | TStr, JStr _ => true
  | TBool, JBool _ => true
  | TInt _ _, JNum (PyInt _) => true
  | TFloat, JNum _ => true
  | _, _ => false
  end.

(** Modelled from the spec: "numeric fields with declared bounds must lie
    within them (inclusive)" (section 4.4; the validator is not part of the
    example scripts). *)
Definition within_bounds (t : FieldType) (v : JVal) : bool :=
  match t, v with
  | TInt lo hi, JNum (PyInt z) =>
      from_option (λ l, l <=? z) true lo && from_option (λ h, z <=? h) true hi
  | _, _ => true
  end.

(** Modelled from the spec: the check of one declared field (section 4.4;
    the validator is not part of the example scripts). *)
Definition check_field (m : gmap string JVal) (f : FieldSpec) : option FieldError :=
  match m !! field_name f with
  | None => Some (FieldMissing (field_name f))
  | Some v =>
      if negb (has_type (field_type f) v) then Some (FieldWrongType (field_name f))
      else if negb (within_bounds (field_type f) v) then Some (FieldOutOfBounds (field_name f))
      else None
  end.

(** Modelled from the spec: the typed value the validator returns, which is
    the declared fields of the payload and nothing else (section 4.4; the
    validator is not part of the example scripts). *)
Definition project (sch : Schema) (m : gmap string JVal) : gmap string JVal :=
  list_to_map (omap (λ f, (λ v, (field_name f, v)) <$> m !! field_name f) sch).

(** Modelled from the spec: the Structured Output Validator (the agent
    library's validation of a final answer against the declared result
    model is not part of the example scripts).  Every declared field must be
    present and of the declared type, bounded numeric fields must lie within
    their bounds (inclusive), unknown extra fields are ignored; a failure
    names each offending field. *)
Definition validate (sch : Schema) (payload : JVal)
  : gmap string JVal + list FieldError :=
  match payload with
  | JObj m =>
      match omap (check_field m) sch with
      | [] => inl (project sch m)
      | errs => inr errs
      end
  | _ => inr [NotAnObject]
  end.

(** Modelled from the spec: the validator's verdict (section 4.4; the
    validator is not part of the example scripts). *)
Definition accepts (sch : Schema) (payload : JVal) : bool :=
  match validate sch payload with inl _ => true | inr _ => false end.

(** Modelled from the spec: the result schema descriptor of an agent
    (section 3; the agent library is not part of the example scripts).  The
    result is plain text when no [result_type] is given, a declared model
    otherwise. *)
Inductive ResultType :=
| ResultText
| ResultModel (sch : Schema).

(** Modelled from the spec: validation of a final answer against the
    agent's result schema descriptor (section 4.1, state Validate; the
    agent library is not part of the example scripts). *)
Definition validate_result (rt : ResultType) (payload : JVal)
  : JVal + list FieldError :=
  match rt with
  | ResultText =>
      match payload with
      | JStr s => inl (JStr s)
      | _ => inr [NotText]
      end
  | ResultModel sch =>
      match validate sch payload with
      | inl v => inl (JObj v)
      | inr errs => inr errs
      end
  end.

(** ** The agent framework: conversation, registry, run loop *)

(** Modelled from the spec: the role of a message (section 3; the agent
    library is not part of the example scripts). *)
Inductive Role := RoleSystem | RoleUser | RoleModel | RoleToolResult.

(** Modelled from the spec: ToolCallRequest, a requested tool name with its
    arguments (section 3; the agent library is not part of the example
    scripts). *)
Record ToolCall := mkToolCall {
  call_name : string;
  call_args : gmap string JVal
}.

(** Modelled from the spec: the description of the failure that consumed
    retry budget (section 4.5; the agent library is not part of the example
    scripts). *)
Inductive FailureDesc :=
| ValidationFailed (errs : list FieldError)
| SoftRetryRequested (tool : string) (msg : string).

(** Modelled from the spec: the content of a message: text, a final
    answer, tool-call requests, a tool-call result (value or error), or a
    corrective instruction (section 3; the agent library is not part of the
    example scripts). *)
Inductive Content :=
| Text (s : string)
| Answer (payload : JVal)
| ToolCalls (calls : list ToolCall)
| ToolValue (name : string) (v : JVal)
| ToolFailure (name : string) (e : PyExn)
| ArgumentFailure (name : string) (errs : list FieldError)
| Correction (d : FailureDesc).

(** Modelled from the spec: Message (section 3; the agent library is not
    part of the example scripts). *)
Record Message := mkMessage { role : Role; content : Content }.

(** Modelled from the spec: whether a message is a turn of the model
    (section 3; the agent library is not part of the example scripts). *)
Definition is_model_message (m : Message) : bool :=
  match role m with
  | RoleModel => true
  | _ => false
  end.

(** Modelled from the spec: the number of model turns recorded in a
    conversation (section 3; the agent library is not part of the example
    scripts). *)
Definition model_turns (c : list Message) : nat :=
  length (filter (λ m, is_model_message m = true) c).

Abbreviation Conversation := (list Message).

(** Modelled from the spec: the Model Client's response, one or more tool
    calls or a final answer (section 6; the agent library is not part of
    the example scripts). *)
Inductive ModelResponse :=
| ToolCallRequest (calls : list ToolCall)
| FinalAnswer (payload : JVal).

(** Modelled from the spec: Tool Specification (section 3; the agent
    library is not part of the example scripts). *)
Record ToolSpec (D : Type) := mkToolSpec {
  tool_name : string;
  arg_schema : Schema;
  handler : gmap string JVal → Eff D JVal
}.
Arguments mkToolSpec {D} tool_name arg_schema handler.
Arguments tool_name {D} t.
Arguments arg_schema {D} t.
Arguments handler {D} t.

(** Modelled from the spec: Agent, the immutable configuration (section 3;
    the agent library is not part of the example scripts). *)
Record Agent (D : Type) := mkAgent {
  static_prompts : list string;
  dynamic_prompts : list (Eff D string);
  tools : list (ToolSpec D);
  result_type : ResultType;
  max_retries : nat
}.
Arguments mkAgent {D} static_prompts dynamic_prompts tools result_type max_retries.
Arguments static_prompts {D} a.
Arguments dynamic_prompts {D} a.
Arguments tools {D} a.
Arguments result_type {D} a.
Arguments max_retries {D} a.

(** Modelled from the spec: RunOutcome, with the fatal endings of section
    4.1 and 4.6 and the out-of-fuel ending of this model (the agent library
    is not part of the example scripts). *)
Inductive RunOutcome :=
| Done (v : JVal)
| Failed (d : FailureDesc)
| FatalError (e : PyExn)
| ProtocolError (name : string)
| Unfinished.

(** Modelled from the spec: the state of one run, its conversation, store
    and remaining retry budget (section 4.1, 4.5; the agent library is not
    part of the example scripts).  [validations], [soft_retries] and
    [model_calls] are ghost counters of what has happened so far. *)
Record RunState (D : Type) := mkRunState {
  conv : Conversation;
  store : Store D;
  budget : nat;
  validations : nat;
  soft_retries : nat;
  model_calls : nat
}.
Arguments mkRunState {D} conv store budget validations soft_retries model_calls.
Arguments conv {D} r.
Arguments store {D} r.
Arguments budget {D} r.
Arguments validations {D} r.
Arguments soft_retries {D} r.
Arguments model_calls {D} r.

(** Modelled from the spec: a terminal state of a run (section 4.1; the
    agent library is not part of the example scripts). *)
Record RunResult (D : Type) := mkRunResult {
  outcome : RunOutcome;
  final : RunState D
}.
Arguments mkRunResult {D} outcome final.
Arguments outcome {D} r.
Arguments final {D} r.

(** Modelled from the spec: appending to the append-only conversation
    (section 3; the agent library is not part of the example scripts). *)
Definition append {D} (msg : Message) (st : RunState D) : RunState D :=
  mkRunState (conv st ++ [msg]) (store st) (budget st)
             (validations st) (soft_retries st) (model_calls st).

(** Modelled from the spec: the run continues in the store a handler left
    (section 4.3; the agent library is not part of the example scripts). *)
Definition with_store {D} (s : Store D) (st : RunState D) : RunState D :=
  mkRunState (conv st) s (budget st)
             (validations st) (soft_retries st) (model_calls st).

(** Modelled from the spec: "Dispatch is a pure lookup by name" (section
    4.2; the agent library is not part of the example scripts). *)
Definition find_tool {D} (ag : Agent D) (name : string) : option (ToolSpec D) :=
  list_find (λ t, tool_name t = name) (tools ag) ≫= λ p, Some p.2.

Section Run.

Context {D : Type}.
Variable ag : Agent D.
(** The model client: what the model answers to a conversation. *)
Variable model : Conversation → ModelResponse.

(** Modelled from the spec: Dispatch (section 4.1, 4.2) and the Retry
    Controller (section 4.5); the agent library's run loop is not part of
    the example scripts.  An unknown tool name ends the run with a protocol
    error; arguments are checked against the declared argument schema
    before the handler runs and a mismatch is fed back; a handler's
    [ModelRetry] consumes one unit of the shared budget, or fails the run
    when none is left; any other handler error is fed back as a
    tool-result error. *)
Definition dispatch (c : ToolCall) (st : RunState D) : RunResult D + RunState D :=
  match find_tool ag (call_name c) with
  | None => inl (mkRunResult (ProtocolError (call_name c)) st)
  | Some t =>
      match validate (arg_schema t) (JObj (call_args c)) with
      | inr errs =>
          inr (append (mkMessage RoleToolResult (ArgumentFailure (call_name c) errs)) st)
      | inl args =>
          match handler t args (store st) with
          | (Ok v, s') =>
              inr (append (mkMessage RoleToolResult (ToolValue (call_name c) v))
                          (with_store s' st))
          | (Raise (ModelRetry msg), s') =>
              let d := SoftRetryRequested (call_name c) msg in
              match budget st with
              | O =>
                  inl (mkRunResult (Failed d)
                         (mkRunState (conv st) s' O (validations st)
                                     (S (soft_retries st)) (model_calls st)))
              | S b =>
                  inr (mkRunState (conv st ++ [mkMessage RoleToolResult (Correction d)])
                                  s' b (validations st) (S (soft_retries st))
                                  (model_calls st))
              end
          | (Raise e, s') =>
              inr (append (mkMessage RoleToolResult (ToolFailure (call_name c) e))
                          (with_store s' st))
          end
      end
  end.

(** Modelled from the spec: the tool calls of one model turn, dispatched in
    the order the model gave them (section 5; the agent library is not part
    of the example scripts). *)
Fixpoint dispatch_all (cs : list ToolCall) (st : RunState D) : RunResult D + RunState D :=
  match cs with
  | [] => inr st
  | c :: cs' =>
      match dispatch c st with
      | inl r => inl r
      | inr st' => dispatch_all cs' st'
      end
  end.

(** Modelled from the spec: the states AwaitModel, Branch, Validate of the
    orchestrator (section 4.1).  [fuel] bounds the number of model
    round-trips, which the loop itself does not bound. *)
Fixpoint loop (fuel : nat) (st : RunState D) : RunResult D :=
  match fuel with
  | O => mkRunResult Unfinished st
  | S fuel' =>
      let resp := model (conv st) in
      let st1 := mkRunState (conv st) (store st) (budget st) (validations st)
                            (soft_retries st) (S (model_calls st)) in
      match resp with
      | ToolCallRequest cs =>
          match dispatch_all cs (append (mkMessage RoleModel (ToolCalls cs)) st1) with
          | inl r => r
          | inr st2 => loop fuel' st2
          end
      | FinalAnswer payload =>
          let st2 := mkRunState (conv st1 ++ [mkMessage RoleModel (Answer payload)])
                                (store st1) (budget st1) (S (validations st1))
                                (soft_retries st1) (model_calls st1) in
          match validate_result (result_type ag) payload with
          | inl v => mkRunResult (Done v) st2
          | inr errs =>
              let d := ValidationFailed errs in
              match budget st2 with
              | O => mkRunResult (Failed d) st2
              | S b =>
                  loop fuel' (mkRunState (conv st2 ++ [mkMessage RoleUser (Correction d)])
                                         (store st2) b (validations st2)
                                         (soft_retries st2) (model_calls st2))
              end
          end
      end
  end.

(** Modelled from the spec: dynamic system prompt composition (section
    4.6): each generator runs once, in registration order, before the first
    model call, and its failure is fatal. *)
Fixpoint eval_generators (gs : list (Eff D string)) (s : Store D)
  : Outcome (list string) * Store D :=
  match gs with
  | [] => (Ok [], s)
  | g :: gs' =>
      match g s with
      | (Raise e, s') => (Raise e, s')
      | (Ok p, s') =>
          match eval_generators gs' s' with
          | (Raise e, s'') => (Raise e, s'')
          | (Ok ps, s'') => (Ok (p :: ps), s'')
          end
      end
  end.

(** Modelled from the spec: the conversation after Init, system message
    then user message, with the full budget (section 4.1; the agent library
    is not part of the example scripts). *)
Definition init_state (sys : list string) (user_input : string) (s : Store D)
  : RunState D :=
  mkRunState [ mkMessage RoleSystem (Text (String.concat EmptyString sys));
               mkMessage RoleUser (Text user_input) ]
             s (max_retries ag) 0 0 0.

(** Modelled from the spec: [run(agent, user_input, dependency_context)]
    (section 4.1), from state Init to a terminal state. *)
Definition run (user_input : string) (d : D) (fuel : nat) : RunResult D :=
  let s0 := mkStore d [] in
  match eval_generators (dynamic_prompts ag) s0 with
  | (Raise e, s) =>
      mkRunResult (FatalError e) (mkRunState [] s (max_retries ag) 0 0 0)
  | (Ok ps, s) =>
      loop fuel (init_state (static_prompts ag ++ ps) user_input s)
  end.

End Run.

(** ** The two agents of the repository *)

(** [support_agent = Agent(..., deps_type=SupportDependencies,
    result_type=SupportResult, system_prompt=(...), retries=2)] with its
    registered prompt generator and tool. *)
Definition support_agent : Agent SupportDependencies :=
  mkAgent
    [ "You are a support agent in our bank, give the " +:+
      "Reply using the customer's name use `add_customer_name`." +:+
      "customer support and judge the risk level of their query. " ]
    [ add_customer_name ]
    [ mkToolSpec "customer_balance" [ mkField "include_pending" TBool ]
        (λ args,
           match args !! "include_pending" with
           | Some (JBool include_pending) =>
               s <~ customer_balance include_pending ;; ret (JStr s)
           | _ => raise TypeError
           end) ]
    (ResultModel SupportResult)
    2.

Section WeatherAgent.

Variable str_float : float → string.

(** [weather_agent = Agent(..., deps_type=WeatherAgentDep, retries=2)] with
    its two registered tools; no result model is declared. *)
Definition weather_agent : Agent WeatherAgentDep :=
  mkAgent
    []
    []
    [ mkToolSpec "get_lat_lng" [ mkField "location_description" TStr ]
        (λ args,
           match args !! "location_description" with
           | Some (JStr location_description) => get_lat_lng location_description
           | _ => raise TypeError
           end);
      mkToolSpec "get_weather" [ mkField "lat" TFloat; mkField "lng" TFloat ]
        (λ args,
           match args !! "lat", args !! "lng" with
           | Some (JNum lat), Some (JNum lng) =>
               get_weather str_float (py_float lat) (py_float lng)
           | _, _ => raise TypeError
           end) ]
    ResultText
    2.

End WeatherAgent.

(** ** Vocabulary of the properties *)

(** A 2xx status. *)
Definition is_success (status : Z) : Prop := 200 ≤ status ≤ 299.

(** What the validation rules ask of one declared field: present, of the
    declared type, within the declared bounds. *)
Definition field_ok (m : gmap string JVal) (f : FieldSpec) : Prop :=
  ∃ v, m !! field_name f = Some v
       ∧ has_type (field_type f) v = true
       ∧ within_bounds (field_type f) v = true.

(** Retries used so far: failed validations and soft retries draw on the
    same budget. *)
Definition spent {D} (st : RunState D) : nat :=
  (validations st + soft_retries st)%nat.

(** Every final answer the model gives is rejected. *)
Definition never_validates {D} (ag : Agent D)
    (model : list Message → ModelResponse) : Prop :=
  ∀ c payload, model c = FinalAnswer payload →
               ∃ errs, validate_result (result_type ag) payload = inr errs.

(** After [k] model turns the model stops asking for tools. *)
Definition answers_after (model : list Message → ModelResponse) (k : nat) : Prop :=
  ∀ c, (k ≤ model_turns c)%nat → ∃ payload, model c = FinalAnswer payload.

Definition is_failed (o : RunOutcome) : bool :=
  match o with Failed _ => true | _ => false end.

(** Sample collaborators for the concrete instances below. *)

Definition delhi_entry : gmap string JVal :=
  {[ "lat" := JStr "28.6"; "lon" := JStr "77.2" ]}.

Definition geocoder_stub (l : list JVal) : AsyncClient :=
  mkAsyncClient (λ _ _, Ok (mkHttpResponse 200 (Some (JList l)))).

Definition realtime_values : gmap string JVal :=
  {[ "temperatureApparent" := JNum (PyFloat 21.5); "weatherCode" := JNum (PyInt 9999) ]}.

Definition weather_stub : AsyncClient :=
  mkAsyncClient
    (λ _ _, Ok (mkHttpResponse 200
                  (Some (JObj {[ "data" := JObj {[ "values" := JObj realtime_values ]} ]})))).

(** A model that answers every conversation with an empty object. *)
Definition answers_nothing : list Message → ModelResponse :=
  λ _, FinalAnswer (JObj ∅).

(** ** weather-agent/weather_agent.py: the dependencies [main] builds *)

(** [os.getenv(key)]: the value of the variable, [None] when it is unset. *)
Definition os_getenv (environ : gmap string string) (key : string) : option string :=
  environ !! key.

(** The dependency object of [main]:
    [WeatherAgentDep(client=client, weather_api_key=os.getenv("WEATHER_API_KEY"),
    geo_api_key=os.getenv("GEO_API_KEY"))]. *)
Definition main_deps (environ : gmap string string) (c : AsyncClient) : WeatherAgentDep :=
  let weather_api_key := os_getenv environ "WEATHER_API_KEY" in
  let geo_api_key := os_getenv environ "GEO_API_KEY" in
  mkWeatherAgentDep c weather_api_key geo_api_key.

(** The query parameters the two tools send. *)
Definition geocode_params (location key : string) : list (string * string) :=
  [("q", location); ("api_key", key)].

Definition weather_params (location key : string) : list (string * string) :=
  [("apikey", key); ("location", location); ("units", "metric")].

(** A client whose every request is answered by the same response. *)
Definition constant_client (r : Outcome HttpResponse) : AsyncClient :=
  mkAsyncClient (λ _ _, r).

(** ** Reading a dollar amount back *)

(** The number a string of decimal digits denotes ([acc] holds the digits
    read so far). *)
Fixpoint read_digits (acc : Z) (s : string) : option Z :=
  match s with
  | EmptyString => Some acc
  | String c s' =>
      if is_digit c
      then read_digits (10 * acc + (Z.of_N (N_of_ascii c) - 48)) s'
      else None
  end.

(** The amount in cents that a text ["$<units>.<dd>"] denotes. *)
Definition read_dollars (s : string) : option Z :=
  match s with
  | String _ rest =>
      if two_decimal_dollars s then
        let n := String.length rest in
        match read_digits 0 (String.substring 0 (n - 3) rest),
              read_digits 0 (String.substring (n - 2) 2 rest) with
        | Some units, Some cents => Some (100 * units + cents)
        | _, _ => None
        end
      else None
  | EmptyString => None
  end.

(** The exact value of a finite number, as a fraction [n / d] with [0 < d]. *)
Definition exact_value (x : PyNum) : option (Z * Z) :=
  match x with
  | PyInt z => Some (z, 1)
  | PyFloat f =>
      match Prim2SF f with
      | S754_zero _ => Some (0, 1)
      | S754_finite s m e =>
          let sgn := if s then -1 else 1 in
          if 0 <=? e then Some (sgn * (Z.pos m * 2 ^ e), 1)
          else Some (sgn * Z.pos m, 2 ^ (- e))
      | _ => None
      end
  end.

(** [c] cents is an amount nearest to the number [x] of dollars:
    [|100 x - c| <= 1/2]. *)
Definition nearest_cents (x : PyNum) (c : Z) : Prop :=
  match exact_value x with
  | Some (n, d) => 2 * Z.abs (100 * n - c * d) ≤ d
  | None => False
  end.

(** A realtime response as the weather API sends it, with fields beside the
    ones the handler reads. *)
Definition realtime_readings : gmap string JVal :=
  {[ "temperatureApparent" := JNum (PyInt 30);
     "weatherCode" := JNum (PyFloat 1000);
     "humidity" := JNum (PyInt 40) ]}.

Definition realtime_data : gmap string JVal :=
  {[ "time" := JStr "2024-01-01T00:00:00Z"; "values" := JObj realtime_readings ]}.

Definition realtime_body : gmap string JVal :=
  {[ "data" := JObj realtime_data;
     "location" := JObj {[ "lat" := JNum (PyFloat 28.5); "lon" := JNum (PyFloat 77.25) ]} ]}.

Definition realtime_response : HttpResponse :=
  mkHttpResponse 200 (Some (JObj realtime_body)).

(** * Properties *)

(** ** The fake database *)

Ltac run_eff :=
  unfold bind, emit, lift, raise, ret, get_deps; cbn [fst snd deps trace].

Lemma customer_name_and_id_dom (id : Z) (name : string) :
  DatabaseConn.customer_name_and_id !! id = Some name →
  (id = 1 ∧ name = "John") ∨ (id = 2 ∧ name = "Trump")
  ∨ (id = 3 ∧ name = "Praveen") ∨ (id = 4 ∧ name = "Lucky").
Proof.
  unfold DatabaseConn.customer_name_and_id. intros H.
  repeat (apply lookup_insert_Some in H as [[<- <-]|[_ H]]; [tauto|]).
  apply lookup_singleton_Some in H as [<- <-]. tauto.
Qed.

Lemma account_balance_dom (id : Z) (b : PyNum) :
  DatabaseConn.account_balance !! id = Some b →
  (id = 1 ∧ b = PyFloat 100) ∨ (id = 2 ∧ b = PyFloat 0x1.edccccccccccdp+6)
  ∨ (id = 3 ∧ b = PyInt 342) ∨ (id = 4 ∧ b = PyInt 10).
Proof.
  unfold DatabaseConn.account_balance. intros H.
  repeat (apply lookup_insert_Some in H as [[<- <-]|[_ H]]; [tauto|]).
  apply lookup_singleton_Some in H as [<- <-]. tauto.
Qed.

Lemma dict_contains_true {V} (d : gmap Z V) (k : Z) :
  dict_contains d k = true ↔ is_Some (d !! k).
Proof. unfold dict_contains. apply bool_decide_eq_true. Qed.

Lemma dict_contains_false {V} (d : gmap Z V) (k : Z) :
  dict_contains d k = false ↔ d !! k = None.
Proof.
  unfold dict_contains. rewrite bool_decide_eq_false, eq_None_not_Some. done.
Qed.

Lemma db_customer_name_eval {D} (id : Z) (s : Store D) :
  DatabaseConn.customer_name id s =
  (match DatabaseConn.customer_name_and_id !! id with
   | Some name => Ok name
   | None => Raise (ValueError ("Customer not found with the given id :- " +:+ str_int id))
   end,
   mkStore (deps s) (trace s ++ [DbCustomerName id])).
Proof.
  unfold DatabaseConn.customer_name. run_eff.
  destruct (dict_contains _ id) eqn:E.
  - apply dict_contains_true in E as [name E]. unfold dict_getitem. by rewrite E.
  - apply dict_contains_false in E. by rewrite E.
Qed.

Lemma db_customer_balance_eval {D} (id : Z) (include_pending : bool) (s : Store D) :
  DatabaseConn.customer_balance id include_pending s =
  (match DatabaseConn.account_balance !! id with
   | Some b => if include_pending then Ok b else Raise (ValueError "Customer not found")
   | None => Raise (ValueError "Customer not found")
   end,
   mkStore (deps s) (trace s ++ [DbCustomerBalance id include_pending])).
Proof.
  unfold DatabaseConn.customer_balance. run_eff.
  destruct (dict_contains _ id) eqn:E.
  - apply dict_contains_true in E as [b E]. unfold dict_getitem. rewrite E.
    by destruct include_pending.
  - apply dict_contains_false in E. by rewrite E.
Qed.

(** C8. [DatabaseConn.customer_balance] raises [ValueError("Customer not
    found")] whenever [include_pending] is false, also for an id that is in
    the account table (such as 1); it returns a balance exactly when the id
    is in the table and [include_pending] is true, and the balance is the
    stored one. *)
Theorem db_customer_balance_needs_pending :
  ∀ (D : Type) (s : Store D) (id : Z),
    (DatabaseConn.customer_balance id false s).1 = Raise (ValueError "Customer not found")
    ∧ is_Some (DatabaseConn.account_balance !! 1)
    ∧ ∀ (include_pending : bool) (b : PyNum),
        (DatabaseConn.customer_balance id include_pending s).1 = Ok b
        ↔ include_pending = true ∧ DatabaseConn.account_balance !! id = Some b.
Proof.
  intros D s id. split; [|split].
  - rewrite db_customer_balance_eval. cbn [fst].
    by destruct (DatabaseConn.account_balance !! id).
  - by eexists.
  - intros p b. rewrite db_customer_balance_eval. cbn [fst].
    destruct (DatabaseConn.account_balance !! id) as [b'|]; destruct p;
      split; try (intros [? ?]); try intros ?; simplify_eq; done.
Qed.

(** C7. The database methods can be called again with the same effect: two
    calls in sequence with the same arguments give the same outcome (value
    or error), whatever the store they start from, and neither changes the
    dependency object of the run. *)
Theorem db_calls_repeatable :
  ∀ (D : Type) (s : Store D) (id : Z) (include_pending : bool),
    (let '(r1, s1) := DatabaseConn.customer_name id s in
     let '(r2, s2) := DatabaseConn.customer_name id s1 in
     r1 = r2 ∧ deps s1 = deps s ∧ deps s2 = deps s)
    ∧ (let '(r1, s1) := DatabaseConn.customer_balance id include_pending s in
       let '(r2, s2) := DatabaseConn.customer_balance id include_pending s1 in
       r1 = r2 ∧ deps s1 = deps s ∧ deps s2 = deps s).
Proof.
  intros D s id p. split.
  - rewrite (db_customer_name_eval id s), db_customer_name_eval. done.
  - rewrite (db_customer_balance_eval id p s), db_customer_balance_eval. done.
Qed.

(** ** The support agent's prompt generator and tool *)

Lemma add_customer_name_eval (s : Store SupportDependencies) :
  add_customer_name s =
  (match DatabaseConn.customer_name_and_id !! customer_id (deps s) with
   | Some name => Ok ("The customer's name is " +:+ repr_str name)
   | None =>
       Raise (ValueError ("Customer not found with the given id :- "
                          +:+ str_int (customer_id (deps s))))
   end,
   mkStore (deps s) (trace s ++ [DbCustomerName (customer_id (deps s))])).
Proof.
  unfold add_customer_name, bind at 1 2, get_deps.
  rewrite db_customer_name_eval.
  by destruct (DatabaseConn.customer_name_and_id !! _).
Qed.

Lemma customer_balance_eval (include_pending : bool) (s : Store SupportDependencies) :
  customer_balance include_pending s =
  (match DatabaseConn.account_balance !! customer_id (deps s) with
   | Some b =>
       match py_format_f 2 b with
       | Ok amount => Ok ("$" +:+ amount)
       | Raise e => Raise e
       end
   | None => Raise (ValueError "Customer not found")
   end,
   mkStore (deps s) (trace s ++ [DbCustomerBalance (customer_id (deps s)) true])).
Proof.
  unfold customer_balance, bind at 1 2, get_deps.
  rewrite db_customer_balance_eval.
  destruct (DatabaseConn.account_balance !! _) as [b|]; [|done].
  run_eff. by destruct (py_format_f 2 b).
Qed.


(** C3 (the code departs from the claim).  The [customer_balance] tool does
    look the balance up under the run's [customer_id], but it passes
    [include_pending=True] to the database whatever value the model
    supplied: called with [include_pending=False] for customer 1 it records
    the lookup [(1, True)] and answers ["$100.00"], where the database
    called with the supplied [False] raises. *)
Theorem customer_balance_tool_passes_true :
  (∀ (d : SupportDependencies) (tr : list Event) (include_pending : bool),
     trace (customer_balance include_pending (mkStore d tr)).2
     = tr ++ [DbCustomerBalance (customer_id d) true])
  ∧ customer_balance false (mkStore (mkSupportDependencies 1 DatabaseConnInstance) [])
    = (Ok "$100.00",
       mkStore (mkSupportDependencies 1 DatabaseConnInstance) [DbCustomerBalance 1 true])
  ∧ (DatabaseConn.customer_balance 1 false
       (mkStore (mkSupportDependencies 1 DatabaseConnInstance) [])).1
    = Raise (ValueError "Customer not found").
Proof.
  split; [|split].
  - intros d tr p. by rewrite customer_balance_eval.
  - vm_compute. reflexivity.
  - vm_compute. reflexivity.
Qed.


(** C6. For a customer id in the account table the [customer_balance] tool
    returns the stored balance written as a dollar amount with exactly two
    decimal places: ["$100.00"] for customer 1 (stored 100.0), ["$123.45"]
    for customer 2 (stored 123.45), ["$342.00"] for customer 3 (stored 342)
    and ["$10.00"] for customer 4 (stored 10).  Read back, the text is the
    amount in cents nearest to the stored balance. *)
#[warnings="-inexact-float"]
Theorem customer_balance_tool_two_decimals :
  ∀ (d : SupportDependencies) (tr : list Event) (include_pending : bool) (b : PyNum),
    DatabaseConn.account_balance !! customer_id d = Some b →
    let out := (customer_balance include_pending (mkStore d tr)).1 in
    ((customer_id d = 1 ∧ b = PyFloat 100.0 ∧ out = Ok "$100.00")
     ∨ (customer_id d = 2 ∧ b = PyFloat 123.45 ∧ out = Ok "$123.45")
     ∨ (customer_id d = 3 ∧ b = PyInt 342 ∧ out = Ok "$342.00")
     ∨ (customer_id d = 4 ∧ b = PyInt 10 ∧ out = Ok "$10.00"))
    ∧ ∃ text cents,
        out = Ok text
        ∧ two_decimal_dollars text = true
        ∧ read_dollars text = Some cents
        ∧ nearest_cents b cents.
Proof.
  intros d tr p b Hb out. unfold out. rewrite customer_balance_eval. cbn [fst deps].
  rewrite Hb.
  apply account_balance_dom in Hb as [[Hid ->]|[[Hid ->]|[[Hid ->]|[Hid ->]]]].
  - split; [left; done|]. exists "$100.00", 10000.
    split_and!; [reflexivity..|]. vm_compute. by intros [=].
  - split; [right; left; done|]. exists "$123.45", 12345.
    split_and!; [reflexivity..|]. vm_compute. by intros [=].
  - split; [right; right; left; done|]. exists "$342.00", 34200.
    split_and!; [reflexivity..|]. vm_compute. by intros [=].
  - split; [right; right; right; done|]. exists "$10.00", 1000.
    split_and!; [reflexivity..|]. vm_compute. by intros [=].
Qed.

#[warnings="-inexact-float"]
Lemma customer_balance_tool_two_decimals_witness :
  let out := (customer_balance false
                (mkStore (mkSupportDependencies 2 DatabaseConnInstance) [])).1 in
  ((2 = 1 ∧ PyFloat 123.45 = PyFloat 100.0 ∧ out = Ok "$100.00")
   ∨ (2 = 2 ∧ PyFloat 123.45 = PyFloat 123.45 ∧ out = Ok "$123.45")
   ∨ (2 = 3 ∧ PyFloat 123.45 = PyInt 342 ∧ out = Ok "$342.00")
   ∨ (2 = 4 ∧ PyFloat 123.45 = PyInt 10 ∧ out = Ok "$10.00"))
  ∧ ∃ text cents,
      out = Ok text
      ∧ two_decimal_dollars text = true
      ∧ read_dollars text = Some cents
      ∧ nearest_cents (PyFloat 123.45) cents.
Proof.
  apply (customer_balance_tool_two_decimals
           (mkSupportDependencies 2 DatabaseConnInstance) [] false).
  reflexivity.
Defined.

(** ** The weather agent's tools *)

Lemma raise_for_status_success {D} (r : HttpResponse) (s : Store D) :
  is_success (status_code r) → raise_for_status r s = (Ok tt, s).
Proof.
  intros [H1 H2]. unfold raise_for_status.
  apply Z.leb_le in H1, H2. by rewrite H1, H2.
Qed.

Lemma py_getitem_int_head (e : JVal) (l : list JVal) :
  py_getitem_int (JList (e :: l)) 0 = Ok e.
Proof.
  unfold py_getitem_int.
  assert (H : (0 <? Z.of_nat (length (e :: l))) = true).
  { apply Z.ltb_lt. cbn [length]. lia. }
  cbn [Z.ltb Z.compare Z.leb andb]. rewrite H. reflexivity.
Qed.

(** What [get_lat_lng] does once the key is there and the geocoding request
    has come back with a 2xx status and a JSON body. *)
Lemma get_lat_lng_eval (d : WeatherAgentDep) (tr : list Event)
    (location key : string) (status : Z) (data : JVal) :
  geo_api_key d = Some key →
  client_get (client d) "https://geocode.maps.co/search" [("q", location); ("api_key", key)]
    = Ok (mkHttpResponse status (Some data)) →
  is_success status →
  (get_lat_lng location (mkStore d tr)).1 =
  if py_truthy data then
    match py_getitem_int data 0 with
    | Ok e =>
        match py_getitem_str e "lat", py_getitem_str e "lon" with
        | Ok lat, Ok lon => Ok (JObj {[ "lat" := lat; "lng" := lon ]})
        | Raise x, _ => Raise x
        | Ok _, Raise x => Raise x
        end
    | Raise x => Raise x
    end
  else Raise (ModelRetry "Could not find the location").
Proof.
  intros Hkey Hget Hok.
  unfold get_lat_lng, http_get, json.
  unfold bind at 1, get_deps. cbn [deps fst snd]. rewrite Hkey.
  unfold bind at 1. unfold bind at 1. cbn [deps]. unfold bind at 1, emit.
  unfold lift at 1. cbn [deps trace]. rewrite Hget.
  unfold bind at 1. rewrite raise_for_status_success by done.
  unfold bind at 1. cbn [body ret].
  destruct (py_truthy data); [|done].
  run_eff. destruct (py_getitem_int data 0) as [e|x]; [|done].
  destruct (py_getitem_str e "lat"); [|done].
  by destruct (py_getitem_str e "lon").
Qed.

(** The exact condition of the soft retry: the decoded body is falsy. *)
Lemma get_lat_lng_retry_iff_falsy (d : WeatherAgentDep) (tr : list Event)
    (location key : string) (status : Z) (data : JVal) :
  geo_api_key d = Some key →
  client_get (client d) "https://geocode.maps.co/search" [("q", location); ("api_key", key)]
    = Ok (mkHttpResponse status (Some data)) →
  is_success status →
  (∃ e, (get_lat_lng location (mkStore d tr)).1 = Raise e ∧ is_soft_retry e = true)
  ↔ py_truthy data = false.
Proof.
  intros Hkey Hget Hok. rewrite (get_lat_lng_eval d tr location key status data) by done.
  destruct (py_truthy data) eqn:Ht.
  - split; [|done]. intros (x & Hx & Hsoft). exfalso.
    destruct data as [| |[z|f]|str|l|m];
      try (cbn in Hx; injection Hx as <-; discriminate Hsoft).
    + cbn in Hx.
      destruct (0 <? _); cbn in Hx; injection Hx as <-; discriminate Hsoft.
    + destruct l as [|e l]; [discriminate Ht|].
      rewrite py_getitem_int_head in Hx.
      destruct (py_getitem_str e "lat") eqn:Hlat.
      * destruct (py_getitem_str e "lon") eqn:Hlon; cbv beta iota in Hx;
          [discriminate Hx|].
        destruct e; cbn in Hlon; try (simplify_eq; discriminate Hsoft).
        destruct (m !! "lon"); simplify_eq; discriminate Hsoft.
      * destruct e; cbn in Hlat; try (simplify_eq; discriminate Hsoft).
        destruct (m !! "lat"); simplify_eq; discriminate Hsoft.
  - split; [done|]. intros _. by eexists.
Qed.

(** C9. Without the API key it needs, each tool raises [ValueError] saying
    that the key is required.  The error is not the soft-retry signal, and
    the store is returned as it was: no HTTP request has been made. *)
Theorem api_key_required :
  ∀ (d : WeatherAgentDep) (tr : list Event),
    (geo_api_key d = None →
     ∀ location,
       get_lat_lng location (mkStore d tr)
       = (Raise (ValueError "Geo API key is required"), mkStore d tr))
    ∧ (weather_api_key d = None →
       ∀ str_float lat lng,
         get_weather str_float lat lng (mkStore d tr)
         = (Raise (ValueError "Weather API key is required"), mkStore d tr))
    ∧ is_soft_retry (ValueError "Geo API key is required") = false
    ∧ is_soft_retry (ValueError "Weather API key is required") = false.
Proof.
  intros d tr. repeat split.
  - intros Hkey location. unfold get_lat_lng, bind, get_deps. cbn [deps].
    by rewrite Hkey.
  - intros Hkey str_float lat lng. unfold get_weather, bind, get_deps. cbn [deps].
    by rewrite Hkey.
Qed.

Lemma code_lookup_size : size code_lookup = 23%nat.
Proof. reflexivity. Qed.

(** What [get_weather] does once the key is there and the weather request
    has come back with a 2xx status and a JSON body. *)
Lemma get_weather_eval (str_float : float → string) (d : WeatherAgentDep)
    (tr : list Event) (lat lng : float) (key : string) (status : Z) (data : JVal) :
  weather_api_key d = Some key →
  client_get (client d) "https://api.tomorrow.io/v4/weather/realtime"
    [("apikey", key); ("location", str_float lat +:+ "," +:+ str_float lng);
     ("units", "metric")]
    = Ok (mkHttpResponse status (Some data)) →
  is_success status →
  (get_weather str_float lat lng (mkStore d tr)).1 =
  match py_getitem_str data "data" with
  | Ok data_data =>
      match py_getitem_str data_data "values" with
      | Ok values =>
          match py_getitem_str values "temperatureApparent" with
          | Ok t =>
              match py_format_f_val 0 t with
              | Ok temperature =>
                  match py_getitem_str values "weatherCode" with
                  | Ok code =>
                      match dict_get code_lookup code "Unknown" with
                      | Ok description =>
                          Ok (JObj {[ "temperature" := JStr (temperature +:+ "°C");
                                      "description" := JStr description ]})
                      | Raise x => Raise x
                      end
                  | Raise x => Raise x
                  end
              | Raise x => Raise x
              end
          | Raise x => Raise x
          end
      | Raise x => Raise x
      end
  | Raise x => Raise x
  end.
Proof.
  intros Hkey Hget Hok.
  unfold get_weather, http_get, json.
  unfold bind at 1, get_deps. cbn [deps fst snd]. rewrite Hkey.
  unfold bind at 1. unfold bind at 1. cbn [deps]. unfold bind at 1, emit.
  unfold lift at 1. cbn [deps trace]. rewrite Hget.
  unfold bind at 1. rewrite raise_for_status_success by done.
  unfold bind at 1. cbn [body ret].
  run_eff.
  destruct (py_getitem_str data "data") as [dd|]; [|done].
  destruct (py_getitem_str dd "values") as [vs|]; [|done].
  destruct (py_getitem_str vs "temperatureApparent") as [t|]; [|done].
  destruct (py_format_f_val 0 t); [|done].
  destruct (py_getitem_str vs "weatherCode") as [c|]; [|done].
  by destruct (dict_get code_lookup c "Unknown").
Qed.

(** Looking a code up never fails on a hashable key, and a key that equals
    no code of the table gives the default. *)
Lemma dict_get_code_unknown (k : JVal) :
  hashable k = true →
  (∀ z, key_int k = Some z → code_lookup !! z = None) →
  dict_get code_lookup k "Unknown" = Ok "Unknown".
Proof.
  intros Hh Hk. unfold dict_get. rewrite Hh. f_equal.
  destruct (key_int k) as [z|]; [|done]. cbn [mbind option_bind].
  by rewrite (Hk z).
Qed.

(** C10. The weather-code translation of [get_weather] on a 2xx response
    that carries [data.values] with a good apparent temperature and a
    weather code, whatever else the response holds.  The table has 23
    entries.  For every hashable code value (number, boolean, string,
    null) that equals no code of the table, the handler returns the
    description ["Unknown"].  A code that is a list or an object cannot be
    looked up: the handler raises [TypeError]. *)
Theorem weather_code_unknown_outside_table :
  ∀ (str_float : float → string) (d : WeatherAgentDep) (tr : list Event)
    (lat lng : float) (key : string) (r : HttpResponse)
    (data data_data values : gmap string JVal) (t code : JVal)
    (temperature : string),
    weather_api_key d = Some key →
    client_get (client d) "https://api.tomorrow.io/v4/weather/realtime"
      [("apikey", key); ("location", str_float lat +:+ "," +:+ str_float lng);
       ("units", "metric")] = Ok r →
    is_success (status_code r) →
    body r = Some (JObj data) →
    data !! "data" = Some (JObj data_data) →
    data_data !! "values" = Some (JObj values) →
    values !! "temperatureApparent" = Some t →
    py_format_f_val 0 t = Ok temperature →
    values !! "weatherCode" = Some code →
    let out := (get_weather str_float lat lng (mkStore d tr)).1 in
    size code_lookup = 23%nat
    ∧ (hashable code = true →
       (∀ z, key_int code = Some z → code_lookup !! z = None) →
       out = Ok (JObj {[ "temperature" := JStr (temperature +:+ "°C");
                         "description" := JStr "Unknown" ]}))
    ∧ (∀ z, code = JNum (PyInt z) → code_lookup !! z = None →
       out = Ok (JObj {[ "temperature" := JStr (temperature +:+ "°C");
                         "description" := JStr "Unknown" ]}))
    ∧ (hashable code = false → out = Raise TypeError).
Proof.
  intros str_float d tr lat lng key r data data_data values t code temperature
    Hkey Hget Hok Hbody Hdata Hvalues Ht Hfmt Hcode out.
  assert (Hout : out = match dict_get code_lookup code "Unknown" with
                       | Ok description =>
                           Ok (JObj {[ "temperature" := JStr (temperature +:+ "°C");
                                       "description" := JStr description ]})
                       | Raise x => Raise x
                       end).
  { unfold out. destruct r as [status bd]. cbn [status_code body] in Hok, Hbody.
    subst bd. erewrite get_weather_eval by done.
    cbn [py_getitem_str]. rewrite Hdata. cbn [py_getitem_str]. rewrite Hvalues.
    cbn [py_getitem_str]. by rewrite Ht, Hfmt, Hcode. }
  split; [exact code_lookup_size|]. split; [|split].
  - intros Hh Hnone. by rewrite Hout, dict_get_code_unknown.
  - intros z -> Hz. rewrite Hout, dict_get_code_unknown; [done..|].
    intros z' [= <-]. done.
  - intros Hh. rewrite Hout. unfold dict_get. by rewrite Hh.
Qed.

Lemma weather_code_unknown_outside_table_witness :
  let out := (get_weather (λ _, "0.0") 0 0
                (mkStore (mkWeatherAgentDep weather_stub (Some "k") None) [])).1 in
  size code_lookup = 23%nat
  ∧ (hashable (JNum (PyInt 9999)) = true →
     (∀ z, key_int (JNum (PyInt 9999)) = Some z → code_lookup !! z = None) →
     out = Ok (JObj {[ "temperature" := JStr ("22" +:+ "°C");
                       "description" := JStr "Unknown" ]}))
  ∧ (∀ z, JNum (PyInt 9999) = JNum (PyInt z) → code_lookup !! z = None →
     out = Ok (JObj {[ "temperature" := JStr ("22" +:+ "°C");
                       "description" := JStr "Unknown" ]}))
  ∧ (hashable (JNum (PyInt 9999)) = false → out = Raise TypeError).
Proof.
  apply (weather_code_unknown_outside_table (λ _, "0.0")
           (mkWeatherAgentDep weather_stub (Some "k") None) [] 0 0 "k"
           (mkHttpResponse 200
              (Some (JObj {[ "data" := JObj {[ "values" := JObj realtime_values ]} ]})))
           {[ "data" := JObj {[ "values" := JObj realtime_values ]} ]}
           {[ "values" := JObj realtime_values ]}
           realtime_values (JNum (PyFloat 21.5)) (JNum (PyInt 9999)) "22").
  - reflexivity.
  - reflexivity.
  - unfold is_success. simpl. lia.
  - reflexivity.
  - reflexivity.
  - reflexivity.
  - reflexivity.
  - reflexivity.
  - reflexivity.
Defined.

(** A weather code outside the table for which the translation fails: the
    code of this response is an empty list, which equals none of the 23
    codes, and [get_weather] raises [TypeError] instead of answering
    ["Unknown"]. *)
Lemma weather_code_list_raises :
  let values : gmap string JVal :=
    {[ "temperatureApparent" := JNum (PyFloat 21.5); "weatherCode" := JList [] ]} in
  let d := mkWeatherAgentDep
             (constant_client
                (Ok (mkHttpResponse 200
                       (Some (JObj {[ "data" := JObj {[ "values" := JObj values ]} ]})))))
             (Some "k") None in
  key_int (JList []) = None
  ∧ (get_weather (λ _, "0.0") 0 0 (mkStore d [])).1 = Raise TypeError.
Proof. split; reflexivity. Qed.

(** ** Validation of the final answer *)

Lemma check_field_None (m : gmap string JVal) (f : FieldSpec) :
  check_field m f = None ↔ field_ok m f.
Proof.
  unfold check_field, field_ok. destruct (m !! field_name f) as [v|].
  - destruct (has_type (field_type f) v) eqn:Ht,
             (within_bounds (field_type f) v) eqn:Hb; cbn [negb].
    + split; [|done]. intros _. by exists v.
    + split; [done|]. intros (v' & Hv & H1 & H2). simplify_eq. congruence.
    + split; [done|]. intros (v' & Hv & H1 & H2). simplify_eq. congruence.
    + split; [done|]. intros (v' & Hv & H1 & H2). simplify_eq. congruence.
  - split; [done|]. by intros (? & ? & _).
Qed.

Lemma omap_check_nil (m : gmap string JVal) (sch : list FieldSpec) :
  omap (check_field m) sch = [] ↔ Forall (field_ok m) sch.
Proof.
  induction sch as [|f sch IH]; cbn [omap list_omap].
  - split; [constructor|done].
  - rewrite Forall_cons, <- IH, <- check_field_None.
    destruct (check_field m f) as [err|].
    + split; [done|]. by intros [? _].
    + split; [by intros ->|]. by intros [_ ->].
Qed.

(** The validator accepts exactly the objects all of whose declared fields
    are present, well typed and within bounds. *)
Lemma accepts_iff (sch : list FieldSpec) (payload : JVal) :
  accepts sch payload = true
  ↔ ∃ m, payload = JObj m ∧ Forall (field_ok m) sch.
Proof.
  unfold accepts, validate. destruct payload as [| | | | |m];
    try (split; [done|by intros (? & ? & _)]).
  destruct (omap (check_field m) sch) eqn:E.
  - split; [|done]. intros _. exists m. split; [done|]. by apply omap_check_nil.
  - split; [done|]. intros (m' & Hm & HF). simplify_eq.
    apply omap_check_nil in HF. congruence.
Qed.

Lemma check_field_insert_other (m : gmap string JVal) (f : FieldSpec)
    (k : string) (v : JVal) :
  field_name f ≠ k → check_field (<[k:=v]> m) f = check_field m f.
Proof. intros Hne. unfold check_field. by rewrite lookup_insert_ne. Qed.

Lemma omap_check_insert_other (sch : list FieldSpec) (m : gmap string JVal)
    (k : string) (v : JVal) :
  k ∉ field_name <$> sch →
  omap (check_field (<[k:=v]> m)) sch = omap (check_field m) sch.
Proof.
  induction sch as [|f sch IH]; intros Hk; [done|]. cbn [omap list_omap].
  rewrite fmap_cons, not_elem_of_cons in Hk. destruct Hk as [Hne Hk].
  rewrite check_field_insert_other by done. by rewrite IH.
Qed.

Lemma project_insert_other (sch : list FieldSpec) (m : gmap string JVal)
    (k : string) (v : JVal) :
  k ∉ field_name <$> sch → project sch (<[k:=v]> m) = project sch m.
Proof.
  intros Hk. unfold project. f_equal.
  induction sch as [|f sch IH]; [done|]. cbn [omap list_omap].
  rewrite fmap_cons, not_elem_of_cons in Hk. destruct Hk as [Hne Hk].
  rewrite lookup_insert_ne by done. by rewrite IH.
Qed.

(** A field that is not declared changes nothing: neither the verdict nor
    the validated value. *)
Lemma validate_ignores_extra (sch : list FieldSpec) (m : gmap string JVal)
    (k : string) (v : JVal) :
  k ∉ field_name <$> sch →
  validate sch (JObj (<[k:=v]> m)) = validate sch (JObj m).
Proof.
  intros Hk. unfold validate.
  by rewrite omap_check_insert_other, project_insert_other.
Qed.

Lemma str_field_ok (m : gmap string JVal) (name : string) :
  field_ok m (mkField name TStr) ↔ ∃ s, m !! name = Some (JStr s).
Proof.
  unfold field_ok. cbn [field_name field_type]. split.
  - intros (v & Hv & Ht & _). destruct v; try done. by eexists.
  - intros (s & Hs). by exists (JStr s).
Qed.

Lemma bool_field_ok (m : gmap string JVal) (name : string) :
  field_ok m (mkField name TBool) ↔ ∃ b, m !! name = Some (JBool b).
Proof.
  unfold field_ok. cbn [field_name field_type]. split.
  - intros (v & Hv & Ht & _). destruct v; try done. by eexists.
  - intros (b & Hb). by exists (JBool b).
Qed.

Lemma int_field_ok (m : gmap string JVal) (name : string) (lo hi : Z) :
  field_ok m (mkField name (TInt (Some lo) (Some hi)))
  ↔ ∃ z, m !! name = Some (JNum (PyInt z)) ∧ lo ≤ z ≤ hi.
Proof.
  unfold field_ok. cbn [field_name field_type]. split.
  - intros (v & Hv & Ht & Hb). destruct v as [| |[z|]| | |]; try done.
    exists z. split; [done|]. cbn in Hb.
    apply andb_true_iff in Hb as [H1 H2]. apply Z.leb_le in H1, H2. lia.
  - intros (z & Hz & H1 & H2). exists (JNum (PyInt z)). repeat split; [done|].
    cbn. apply andb_true_iff. split; by apply Z.leb_le.
Qed.

(** C2. The validator accepts a final-answer payload for [SupportResult]
    exactly when it is an object with a string [support_advice], a boolean
    [block_card] and an integer [risk] between 0 and 10 inclusive, and for
    [MyModel] exactly when it is an object with strings [city], [state],
    [country] and [population]; for any model, those two included, adding a
    field the model does not declare changes neither the verdict nor the
    validated value. *)
Theorem validation_accepts_iff_declared_fields :
  ∀ payload : JVal,
    (accepts SupportResult payload = true
     ↔ ∃ m advice block risk,
         payload = JObj m
         ∧ m !! "support_advice" = Some (JStr advice)
         ∧ m !! "block_card" = Some (JBool block)
         ∧ m !! "risk" = Some (JNum (PyInt risk))
         ∧ 0 ≤ risk ≤ 10)
    ∧ (accepts MyModel payload = true
       ↔ ∃ m city state country population,
           payload = JObj m
           ∧ m !! "city" = Some (JStr city)
           ∧ m !! "state" = Some (JStr state)
           ∧ m !! "country" = Some (JStr country)
           ∧ m !! "population" = Some (JStr population))
    ∧ (∀ (sch : list FieldSpec) m k v,
         k ∉ field_name <$> sch →
         validate sch (JObj (<[k:=v]> m)) = validate sch (JObj m)
         ∧ accepts sch (JObj (<[k:=v]> m)) = accepts sch (JObj m)).
Proof.
  intros payload. split; [|split].
  - rewrite accepts_iff. unfold SupportResult. split.
    + intros (m & -> & HF).
      apply Forall_cons in HF as [Ha HF]. apply Forall_cons in HF as [Hb HF].
      apply Forall_cons in HF as [Hr _].
      apply str_field_ok in Ha as [a Ha]. apply bool_field_ok in Hb as [b Hb].
      apply int_field_ok in Hr as (r & Hr & Hbound).
      by exists m, a, b, r.
    + intros (m & a & b & r & -> & Ha & Hb & Hr & Hbound). exists m. split; [done|].
      repeat apply Forall_cons_2; [| | |constructor].
      * apply str_field_ok. by eexists.
      * apply bool_field_ok. by eexists.
      * apply int_field_ok. by eexists.
  - rewrite accepts_iff. unfold MyModel. split.
    + intros (m & -> & HF).
      apply Forall_cons in HF as [H1 HF]. apply Forall_cons in HF as [H2 HF].
      apply Forall_cons in HF as [H3 HF]. apply Forall_cons in HF as [H4 _].
      apply str_field_ok in H1 as [c H1]. apply str_field_ok in H2 as [s H2].
      apply str_field_ok in H3 as [n H3]. apply str_field_ok in H4 as [p H4].
      by exists m, c, s, n, p.
    + intros (m & c & s & n & p & -> & H1 & H2 & H3 & H4). exists m. split; [done|].
      repeat apply Forall_cons_2; [| | | |constructor];
        apply str_field_ok; by eexists.
  - intros sch m k v Hk. unfold accepts.
    by rewrite validate_ignores_extra.
Qed.

(** ** The run loop and its retry budget *)

Lemma model_turns_snoc (c : list Message) (m : Message) :
  model_turns (c ++ [m])
  = (model_turns c + if is_model_message m then 1 else 0)%nat.
Proof.
  unfold model_turns. rewrite filter_app, length_app. f_equal.
  rewrite filter_cons, filter_nil. destruct (is_model_message m); by case_decide.
Qed.

Section RunProperties.

Context {D : Type}.
Variable ag : Agent D.
Variable model : list Message → ModelResponse.

(** What dispatching one tool call can do to the counters of the run. *)
Lemma dispatch_counters (c : ToolCall) (st : RunState D) :
  match dispatch ag c st with
  | inr st' =>
      validations st' = validations st
      ∧ model_calls st' = model_calls st
      ∧ model_turns (conv st') = model_turns (conv st)
      ∧ (soft_retries st' + budget st' = soft_retries st + budget st)%nat
      ∧ (budget st' ≤ budget st)%nat
  | inl r =>
      validations (final r) = validations st
      ∧ model_calls (final r) = model_calls st
      ∧ ((∃ name, outcome r = ProtocolError name)
           ∧ (soft_retries (final r) + budget (final r)
              = soft_retries st + budget st)%nat
         ∨ (∃ tool msg, outcome r = Failed (SoftRetryRequested tool msg))
           ∧ budget (final r) = O
           ∧ (soft_retries (final r) = soft_retries st + budget st + 1)%nat)
  end.
Proof.
  unfold dispatch. destruct (find_tool ag (call_name c)) as [t|].
  2:{ cbn. repeat split. left. split; [by eexists|done]. }
  destruct (validate (arg_schema t) (JObj (call_args c))) as [args|errs].
  2:{ cbn [append validations model_calls conv soft_retries budget].
      rewrite model_turns_snoc. cbn. repeat split; lia. }
  destruct (handler t args (store st)) as [[v|e] s'].
  { cbn [append with_store validations model_calls conv soft_retries budget].
    rewrite model_turns_snoc. cbn. repeat split; lia. }
  destruct e;
    try (cbn [append with_store validations model_calls conv soft_retries budget];
         rewrite model_turns_snoc; cbn; repeat split; lia).
  destruct (budget st) as [|b] eqn:Hb.
  - cbn. repeat split. right. repeat split; [by do 2 eexists|lia].
  - cbn [validations model_calls conv soft_retries budget].
    rewrite model_turns_snoc. cbn. repeat split; lia.
Qed.

Lemma dispatch_all_counters (cs : list ToolCall) (st : RunState D) :
  match dispatch_all ag cs st with
  | inr st' =>
      validations st' = validations st
      ∧ model_calls st' = model_calls st
      ∧ model_turns (conv st') = model_turns (conv st)
      ∧ (soft_retries st' + budget st' = soft_retries st + budget st)%nat
      ∧ (budget st' ≤ budget st)%nat
  | inl r =>
      validations (final r) = validations st
      ∧ model_calls (final r) = model_calls st
      ∧ ((∃ name, outcome r = ProtocolError name)
           ∧ (soft_retries (final r) + budget (final r)
              = soft_retries st + budget st)%nat
         ∨ (∃ tool msg, outcome r = Failed (SoftRetryRequested tool msg))
           ∧ budget (final r) = O
           ∧ (soft_retries (final r) = soft_retries st + budget st + 1)%nat)
  end.
Proof.
  revert st. induction cs as [|c cs IH]; intros st; cbn [dispatch_all].
  - done.
  - pose proof (dispatch_counters c st) as Hc.
    destruct (dispatch ag c st) as [r|st1]; [done|].
    destruct Hc as (Hv & Hm & Ht & Hs & Hle).
    specialize (IH st1). destruct (dispatch_all ag cs st1) as [r|st2].
    + destruct IH as (Hv' & Hm' & [[Hp Hs']|(Hf & Hb & Hs')]).
      * repeat split; [congruence..|]. left. split; [done|lia].
      * repeat split; [congruence..|]. right. repeat split; [done..|lia].
    + destruct IH as (Hv' & Hm' & Ht' & Hs' & Hle').
      repeat split; [congruence..|lia|lia].
Qed.

(** The budget invariant: what has been spent plus what is left stays what
    it was, until the failure that finds the budget empty. *)
Lemma loop_budget (fuel : nat) (st : RunState D) :
  never_validates ag model →
  let r := loop ag model fuel st in
  (∀ v, outcome r ≠ Done v)
  ∧ (spent (final r) + budget (final r)
     = spent st + budget st + if is_failed (outcome r) then 1 else 0)%nat
  ∧ (is_failed (outcome r) = true → budget (final r) = O).
Proof.
  intros Hnever. revert st. unfold spent.
  induction fuel as [|fuel IH]; intros st; cbn [loop].
  - cbn. repeat split; [done|lia|done].
  - destruct (model (conv st)) as [cs|payload] eqn:Hresp.
    + match goal with |- context [dispatch_all ag cs ?s] =>
        pose proof (dispatch_all_counters cs s) as Hd;
        destruct (dispatch_all ag cs s) as [r|st2] end.
      * cbn [append validations soft_retries budget model_calls] in Hd.
        destruct Hd as (Hv & Hm & [[[name Hp] Hs]|([tool [msg Hf]] & Hb & Hs)]);
          rewrite ?Hp, ?Hf; cbn [is_failed]; repeat split; try done; lia.
      * cbn [append validations soft_retries budget model_calls conv] in Hd.
        destruct Hd as (Hv & Hm & Ht & Hs & Hle).
        specialize (IH st2). cbv zeta in IH. destruct IH as (IH1 & IH2 & IH3).
        repeat split; [done| |done]. rewrite IH2. lia.
    + destruct (Hnever _ _ Hresp) as [errs ->].
      cbn [budget validations soft_retries conv store model_calls].
      destruct (budget st) as [|b] eqn:Hb.
      * cbn. repeat split; [done|lia].
      * match goal with |- context [loop ag model fuel ?s] =>
          specialize (IH s) end.
        cbv zeta in IH. destruct IH as (IH1 & IH2 & IH3).
        cbn [budget validations soft_retries] in IH2.
        repeat split; [done| |done]. rewrite IH2. lia.
Qed.

(** Enough fuel: once the model has stopped asking for tools, each further
    round-trip uses up one retry, so the loop reaches a terminal state. *)
Lemma loop_terminates (k fuel : nat) (st : RunState D) :
  never_validates ag model →
  answers_after model k →
  model_turns (conv st) = model_calls st →
  (k - model_calls st + budget st < fuel)%nat →
  outcome (loop ag model fuel st) ≠ Unfinished.
Proof.
  intros Hnever Hk. revert st.
  induction fuel as [|fuel IH]; intros st Hturns Hfuel; [lia|]. cbn [loop].
  destruct (model (conv st)) as [cs|payload] eqn:Hresp.
  - assert (model_calls st < k)%nat as Hlt.
    { destruct (decide (k ≤ model_turns (conv st))%nat) as [Hge|Hlt]; [|lia].
      destruct (Hk _ Hge) as [p Hp]. congruence. }
    match goal with |- context [dispatch_all ag cs ?s] =>
      pose proof (dispatch_all_counters cs s) as Hd;
      destruct (dispatch_all ag cs s) as [r|st2] end.
    + destruct Hd as (_ & _ & [[[name Hp] _]|([tool [msg Hf]] & _)]); congruence.
    + cbn [append validations soft_retries budget model_calls conv] in Hd.
      rewrite model_turns_snoc in Hd. cbn in Hd.
      destruct Hd as (Hv & Hm & Ht & Hs & Hle). apply IH; lia.
  - destruct (Hnever _ _ Hresp) as [errs ->].
    cbn [budget validations soft_retries conv store model_calls].
    destruct (budget st) as [|b] eqn:Hb; [done|].
    apply IH; cbn [conv model_calls budget].
    + rewrite !model_turns_snoc. cbn. lia.
    + lia.
Qed.

End RunProperties.

Lemma init_state_counters {D} (ag : Agent D) (sys : list string) (input : string)
    (s : Store D) :
  let st := init_state ag sys input s in
  model_turns (conv st) = model_calls st
  ∧ model_calls st = O
  ∧ spent st = O
  ∧ budget st = max_retries ag.
Proof. done. Qed.

(** A model that only ever answers, and never validly, uses the whole
    budget: exactly [max_retries + 1] validations, then [Failed]. *)
Lemma loop_answer_only {D} (ag : Agent D) (model : list Message → ModelResponse)
    (fuel : nat) (st : RunState D) :
  never_validates ag model →
  answers_after model 0 →
  (budget st < fuel)%nat →
  let r := loop ag model fuel st in
  (∃ errs, outcome r = Failed (ValidationFailed errs))
  ∧ validations (final r) = (validations st + budget st + 1)%nat
  ∧ soft_retries (final r) = soft_retries st
  ∧ model_calls (final r) = (model_calls st + budget st + 1)%nat.
Proof.
  intros Hnever Hk. revert st.
  induction fuel as [|fuel IH]; intros st Hfuel; [lia|]. cbn [loop].
  destruct (Hk (conv st)) as [payload Hresp]; [lia|]. rewrite Hresp.
  destruct (Hnever _ _ Hresp) as [errs ->].
  cbn [budget validations soft_retries conv store model_calls].
  destruct (budget st) as [|b] eqn:Hb.
  - cbn. repeat split; [by eexists|lia|lia].
  - match goal with |- context [loop ag model fuel ?s] =>
      specialize (IH s) end.
    cbn [budget validations soft_retries model_calls] in IH.
    destruct IH as (IH1 & IH2 & IH3 & IH4); [lia|].
    cbv zeta. repeat split; [done|lia|done|lia].
Qed.

(** C1. With [max_retries = n], a run in which no final answer of the
    model validates makes at most [n + 1] validation attempts, however long
    it is followed, and never ends in [Done]; when it ends in [Failed] on a
    validation failure, validations and soft retries together number
    exactly [n + 1] (the shared budget is used up).  The run does end: once
    the model stops asking for tools after [k] turns, [k + n + 1]
    round-trips suffice to reach [Failed] or a fatal or protocol error.
    Both agents of the repository are configured with [n = 2]. *)
Theorem run_validations_within_budget :
  ∀ (D : Type) (ag : Agent D) (model : list Message → ModelResponse)
    (input : string) (d : D),
    never_validates ag model →
    (∀ fuel,
       let r := run ag model input d fuel in
       (validations (final r) ≤ max_retries ag + 1)%nat
       ∧ (∀ v, outcome r ≠ Done v)
       ∧ (∀ errs, outcome r = Failed (ValidationFailed errs) →
            (validations (final r) + soft_retries (final r)
             = max_retries ag + 1)%nat))
    ∧ (∀ k fuel,
         answers_after model k →
         (k + max_retries ag < fuel)%nat →
         outcome (run ag model input d fuel) ≠ Unfinished)
    ∧ max_retries support_agent = 2%nat
    ∧ (∀ str_float, max_retries (weather_agent str_float) = 2%nat).
Proof.
  intros D ag model input d Hnever.
  split; [|split; [|done]].
  - intros fuel r. unfold run in r.
    destruct (eval_generators (dynamic_prompts ag) (mkStore d [])) as [[ps|e] s].
    + set (st := init_state ag (static_prompts ag ++ ps) input s) in r.
      destruct (init_state_counters ag (static_prompts ag ++ ps) input s)
        as (_ & _ & Hspent & Hbudget). fold st in Hspent, Hbudget.
      destruct (loop_budget ag model fuel st Hnever) as (Hdone & Hsum & Hzero).
      fold r in Hdone, Hsum, Hzero. rewrite Hspent, Hbudget in Hsum.
      unfold spent in Hsum. repeat split; [|done|].
      * destruct (is_failed (outcome r)); lia.
      * intros errs Hfail. rewrite Hfail in Hsum, Hzero. cbn in Hsum, Hzero.
        rewrite Hzero in Hsum by done. lia.
    + subst r. cbn. repeat split; [lia|done|done].
  - intros k fuel Hk Hfuel. unfold run.
    destruct (eval_generators (dynamic_prompts ag) (mkStore d [])) as [[ps|e] s];
      [|done].
    destruct (init_state_counters ag (static_prompts ag ++ ps) input s)
      as (Hturns & Hcalls & _ & Hbudget).
    apply (loop_terminates ag model k); [done..|]. rewrite Hcalls, Hbudget. lia.
Qed.

Lemma run_validations_within_budget_witness :
  (∀ fuel,
     let r := run support_agent answers_nothing "What is my balance?"
                  (mkSupportDependencies 3 DatabaseConnInstance) fuel in
     (validations (final r) ≤ max_retries support_agent + 1)%nat
     ∧ (∀ v, outcome r ≠ Done v)
     ∧ (∀ errs, outcome r = Failed (ValidationFailed errs) →
          (validations (final r) + soft_retries (final r)
           = max_retries support_agent + 1)%nat))
  ∧ (∀ k fuel,
       answers_after answers_nothing k →
       (k + max_retries support_agent < fuel)%nat →
       outcome (run support_agent answers_nothing "What is my balance?"
                    (mkSupportDependencies 3 DatabaseConnInstance) fuel)
       ≠ Unfinished)
  ∧ max_retries support_agent = 2%nat
  ∧ (∀ str_float, max_retries (weather_agent str_float) = 2%nat).
Proof.
  apply (run_validations_within_budget SupportDependencies support_agent
           answers_nothing "What is my balance?"
           (mkSupportDependencies 3 DatabaseConnInstance)).
  intros c payload Hc. injection Hc as <-. eexists. reflexivity.
Defined.

(** The run above really ends in [Failed], after three validations and as
    many model calls. *)
Example support_run_exhausts_retries :
  let r := run support_agent answers_nothing "What is my balance?"
               (mkSupportDependencies 3 DatabaseConnInstance) 3 in
  outcome r = Failed (ValidationFailed [ FieldMissing "support_advice";
                                         FieldMissing "block_card";
                                         FieldMissing "risk" ])
  ∧ validations (final r) = 3%nat
  ∧ model_calls (final r) = 3%nat.
Proof. vm_compute. done. Qed.

(** When the prompt generators succeed and the model only ever answers, the
    run ends in [Failed] after exactly [max_retries + 1] validations. *)
Lemma run_answer_only_fails (D : Type) (ag : Agent D)
    (model : list Message → ModelResponse) (input : string) (d : D) (fuel : nat) :
  never_validates ag model →
  answers_after model 0 →
  (∃ ps s, eval_generators (dynamic_prompts ag) (mkStore d []) = (Ok ps, s)) →
  (max_retries ag < fuel)%nat →
  let r := run ag model input d fuel in
  (∃ errs, outcome r = Failed (ValidationFailed errs))
  ∧ validations (final r) = (max_retries ag + 1)%nat
  ∧ model_calls (final r) = (max_retries ag + 1)%nat.
Proof.
  intros Hnever Hk (ps & s & Hgen) Hfuel. unfold run. rewrite Hgen.
  destruct (loop_answer_only ag model fuel
              (init_state ag (static_prompts ag ++ ps) input s) Hnever Hk)
    as (Hfail & Hv & _ & Hm); [done|].
  cbv zeta. repeat split; [done|exact Hv|exact Hm].
Qed.

(** ** Concrete runs of the handlers *)

Example add_customer_name_present :
  (add_customer_name (mkStore (mkSupportDependencies 3 DatabaseConnInstance) [])).1
  = Ok "The customer's name is 'Praveen'".
Proof. reflexivity. Qed.

Example add_customer_name_absent :
  add_customer_name (mkStore (mkSupportDependencies 9 DatabaseConnInstance) [])
  = (Raise (ValueError "Customer not found with the given id :- 9"),
     mkStore (mkSupportDependencies 9 DatabaseConnInstance) [DbCustomerName 9]).
Proof. reflexivity. Qed.

Example support_run_unknown_customer :
  let r := run support_agent answers_nothing "What is my balance?"
               (mkSupportDependencies 9 DatabaseConnInstance) 5 in
  outcome r = FatalError (ValueError "Customer not found with the given id :- 9")
  ∧ model_calls (final r) = O.
Proof. vm_compute. done. Qed.

Example db_customer_balance_all_ids :
  let s := mkStore (mkSupportDependencies 1 DatabaseConnInstance) [] in
  (DatabaseConn.customer_balance 2 true s).1 = Ok (PyFloat 0x1.edccccccccccdp+6)
  ∧ (DatabaseConn.customer_balance 2 false s).1 = Raise (ValueError "Customer not found")
  ∧ (DatabaseConn.customer_balance 5 true s).1 = Raise (ValueError "Customer not found").
Proof. vm_compute. done. Qed.

Example get_lat_lng_nothing_found :
  get_lat_lng "Atlantis"
    (mkStore (mkWeatherAgentDep (geocoder_stub []) None (Some "k")) [])
  = (Raise (ModelRetry "Could not find the location"),
     mkStore (mkWeatherAgentDep (geocoder_stub []) None (Some "k"))
       [HttpGet "https://geocode.maps.co/search" [("q", "Atlantis"); ("api_key", "k")]]).
Proof. reflexivity. Qed.

Example get_lat_lng_no_key :
  get_lat_lng "Delhi"
    (mkStore (mkWeatherAgentDep (geocoder_stub [JObj delhi_entry]) None None) [])
  = (Raise (ValueError "Geo API key is required"),
     mkStore (mkWeatherAgentDep (geocoder_stub [JObj delhi_entry]) None None) []).
Proof. reflexivity. Qed.

Example weather_code_known :
  dict_get code_lookup (JNum (PyInt 1000)) "Unknown" = Ok "Clear, Sunny"
  ∧ dict_get code_lookup (JNum (PyFloat 8000)) "Unknown" = Ok "Thunderstorm"
  ∧ dict_get code_lookup (JNum (PyInt 1234)) "Unknown" = Ok "Unknown"
  ∧ dict_get code_lookup JNull "Unknown" = Ok "Unknown".
Proof. vm_compute. done. Qed.

Example format_f_rounds_half_even :
  format_f 0 (Prim2SF 2.5) = "2"
  ∧ format_f 0 (Prim2SF 3.5) = "4"
  ∧ format_f 2 (Prim2SF 0.125) = "0.12"
  ∧ format_f 2 (Prim2SF (-0.375)) = "-0.38"
  ∧ py_format_f 2 (PyInt 342) = Ok "342.00".
Proof. vm_compute. done. Qed.

(** * Further properties of the handlers *)

(** ** The fake database and the support agent's handlers *)

(** X1. The name table and the account table know the same customers: a
    name lookup succeeds for an id exactly when the balance lookup with
    [include_pending=True] succeeds for it. *)
Theorem db_tables_same_ids :
  ∀ (D : Type) (s s' : Store D) (id : Z),
    (∃ name, (DatabaseConn.customer_name id s).1 = Ok name)
    ↔ (∃ b, (DatabaseConn.customer_balance id true s').1 = Ok b).
Proof.
  intros D s s' id. rewrite db_customer_name_eval, db_customer_balance_eval.
  cbn [fst]. split.
  - intros [name H].
    destruct (DatabaseConn.customer_name_and_id !! id) as [n|] eqn:E; [|done].
    apply customer_name_and_id_dom in E
      as [[-> _]|[[-> _]|[[-> _]|[-> _]]]]; by eexists.
  - intros [b H].
    destruct (DatabaseConn.account_balance !! id) as [b'|] eqn:E; [|done].
    apply account_balance_dom in E
      as [[-> _]|[[-> _]|[[-> _]|[-> _]]]]; by eexists.
Qed.

(** X2. Once the prompt generator has succeeded for the customer of a run,
    the balance tool cannot fail for that customer: it returns a dollar
    amount with two decimal places, whatever [include_pending] the model
    supplies and whatever has been recorded in between. *)
Theorem generator_success_implies_balance :
  ∀ (s s' : Store SupportDependencies) (prompt : string) (include_pending : bool),
    (add_customer_name s).1 = Ok prompt →
    customer_id (deps s') = customer_id (deps s) →
    ∃ amount,
      (customer_balance include_pending s').1 = Ok amount
      ∧ two_decimal_dollars amount = true.
Proof.
  intros s s' prompt p Hgen Hid.
  rewrite add_customer_name_eval in Hgen. cbn [fst] in Hgen.
  destruct (DatabaseConn.customer_name_and_id !! customer_id (deps s))
    as [name|] eqn:E; [|done].
  rewrite customer_balance_eval. cbn [fst]. rewrite Hid.
  apply customer_name_and_id_dom in E
    as [[-> _]|[[-> _]|[[-> _]|[-> _]]]]; by eexists.
Qed.

Lemma generator_success_implies_balance_witness :
  ∃ amount,
    (customer_balance false
       (mkStore (mkSupportDependencies 3 DatabaseConnInstance) [DbCustomerName 3])).1
    = Ok amount
    ∧ two_decimal_dollars amount = true.
Proof.
  apply (generator_success_implies_balance
           (mkStore (mkSupportDependencies 3 DatabaseConnInstance) [])
           (mkStore (mkSupportDependencies 3 DatabaseConnInstance) [DbCustomerName 3])
           "The customer's name is 'Praveen'" false).
  - reflexivity.
  - reflexivity.
Defined.

(** X3. The balance tool has two outcomes only: a value when the run's
    customer is in the account table, and [ValueError("Customer not
    found")] when it is not; formatting never fails.  The outcome and the
    store left behind are the same for both values of [include_pending]. *)
Theorem customer_balance_tool_outcomes :
  ∀ (s : Store SupportDependencies) (include_pending : bool),
    ((∃ amount, (customer_balance include_pending s).1 = Ok amount)
     ↔ is_Some (DatabaseConn.account_balance !! customer_id (deps s)))
    ∧ ((customer_balance include_pending s).1 = Raise (ValueError "Customer not found")
       ↔ DatabaseConn.account_balance !! customer_id (deps s) = None)
    ∧ (∀ e, (customer_balance include_pending s).1 = Raise e →
            e = ValueError "Customer not found")
    ∧ customer_balance include_pending s = customer_balance (negb include_pending) s.
Proof.
  intros s p. rewrite !customer_balance_eval. cbn [fst].
  destruct (DatabaseConn.account_balance !! customer_id (deps s)) as [b|] eqn:E.
  - apply account_balance_dom in E
      as [[_ ->]|[[_ ->]|[[_ ->]|[_ ->]]]];
      (repeat split; try done; try (by eexists); by intros [? ?]).
  - repeat split; try done; try (by intros [? ?]). by intros e [= <-].
Qed.

(** X4. For a customer of the name table the generated prompt fragment is
    the stored name between single quotes after ["The customer's name is "],
    and the fragment identifies the customer: two customers with the same
    fragment are the same customer. *)
Theorem add_customer_name_fragment :
  ∀ (s : Store SupportDependencies),
    (∀ name, DatabaseConn.customer_name_and_id !! customer_id (deps s) = Some name →
       (add_customer_name s).1
       = Ok ("The customer's name is '" +:+ name +:+ "'"))
    ∧ (∀ s' fragment,
         (add_customer_name s).1 = Ok fragment →
         (add_customer_name s').1 = Ok fragment →
         customer_id (deps s) = customer_id (deps s')).
Proof.
  intros s. split.
  - intros name E. rewrite add_customer_name_eval. cbn [fst]. rewrite E.
    apply customer_name_and_id_dom in E
      as [[_ ->]|[[_ ->]|[[_ ->]|[_ ->]]]]; reflexivity.
  - intros s' fragment. rewrite !add_customer_name_eval. cbn [fst].
    destruct (DatabaseConn.customer_name_and_id !! customer_id (deps s))
      as [n|] eqn:E; [|done].
    destruct (DatabaseConn.customer_name_and_id !! customer_id (deps s'))
      as [n'|] eqn:E'; [|done].
    apply customer_name_and_id_dom in E
      as [[-> ->]|[[-> ->]|[[-> ->]|[-> ->]]]];
      apply customer_name_and_id_dom in E'
        as [[-> ->]|[[-> ->]|[[-> ->]|[-> ->]]]];
      intros [= <-] H; first [done | discriminate H].
Qed.

(** ** The geocoding tool *)

(** [get_lat_lng] with a key, followed through every path. *)
Lemma get_lat_lng_unfold (d : WeatherAgentDep) (tr : list Event)
    (location key : string) :
  geo_api_key d = Some key →
  get_lat_lng location (mkStore d tr) =
  (match client_get (client d) "https://geocode.maps.co/search"
           (geocode_params location key) with
   | Raise x => Raise x
   | Ok r =>
       if (200 <=? status_code r) && (status_code r <=? 299) then
         match body r with
         | None => Raise JSONDecodeError
         | Some data =>
             if py_truthy data then
               match py_getitem_int data 0 with
               | Ok e =>
                   match py_getitem_str e "lat", py_getitem_str e "lon" with
                   | Ok lat, Ok lon => Ok (JObj {[ "lat" := lat; "lng" := lon ]})
                   | Raise x, _ => Raise x
                   | Ok _, Raise x => Raise x
                   end
               | Raise x => Raise x
               end
             else Raise (ModelRetry "Could not find the location")
         end
       else Raise (HTTPStatusError (status_code r))
   end,
   mkStore d (tr ++ [HttpGet "https://geocode.maps.co/search"
                       (geocode_params location key)])).
Proof.
  intros Hkey. unfold geocode_params, get_lat_lng, http_get, json, raise_for_status.
  unfold bind at 1, get_deps. cbn [deps fst snd]. rewrite Hkey.
  run_eff.
  destruct (client_get _ _ _) as [r|x]; [|done].
  destruct (_ && _); [|done].
  destruct (body r) as [data|]; [|done].
  destruct (py_truthy data); [|done].
  destruct (py_getitem_int data 0) as [e|x]; [|done].
  destruct (py_getitem_str e "lat"); [|done].
  by destruct (py_getitem_str e "lon").
Qed.

Lemma is_success_check (status : Z) :
  (200 <=? status) && (status <=? 299) = true ↔ is_success status.
Proof. unfold is_success. rewrite andb_true_iff, !Z.leb_le. done. Qed.

Lemma not_success_check (status : Z) :
  ¬ is_success status → (200 <=? status) && (status <=? 299) = false.
Proof.
  intros H. apply not_true_is_false. by rewrite is_success_check.
Qed.

(** X5. With a key, [get_lat_lng] sends exactly one request, whatever comes
    back: a GET of the geocoding URL with the parameters [q] (the location
    as given) and [api_key] (the geo key, never the weather key); the
    dependency object is left as it was. *)
Theorem get_lat_lng_single_request :
  ∀ (d : WeatherAgentDep) (tr : list Event) (location key : string),
    geo_api_key d = Some key →
    (get_lat_lng location (mkStore d tr)).2
    = mkStore d (tr ++ [HttpGet "https://geocode.maps.co/search"
                          [("q", location); ("api_key", key)]]).
Proof.
  intros d tr location key Hkey. by rewrite (get_lat_lng_unfold d tr location key).
Qed.

Lemma get_lat_lng_single_request_witness :
  (get_lat_lng "Delhi"
     (mkStore (mkWeatherAgentDep (constant_client (Raise (TransportError "timeout")))
                 (Some "w") (Some "g")) [])).2
  = mkStore (mkWeatherAgentDep (constant_client (Raise (TransportError "timeout")))
               (Some "w") (Some "g"))
      ([] ++ [HttpGet "https://geocode.maps.co/search"
                [("q", "Delhi"); ("api_key", "g")]]).
Proof.
  apply (get_lat_lng_single_request
           (mkWeatherAgentDep (constant_client (Raise (TransportError "timeout")))
              (Some "w") (Some "g")) [] "Delhi" "g").
  reflexivity.
Defined.

(** X6. When the geocoding request does not yield a decodable 2xx response,
    [get_lat_lng] raises the error of the request and not the soft-retry
    signal: a transport failure is passed on, a status outside 2xx raises
    [HTTPStatusError] (also when the body is an empty list), a 2xx body
    that is not JSON raises [JSONDecodeError]. *)
Theorem get_lat_lng_request_failures :
  ∀ (d : WeatherAgentDep) (tr : list Event) (location key : string),
    geo_api_key d = Some key →
    let response := client_get (client d) "https://geocode.maps.co/search"
                      [("q", location); ("api_key", key)] in
    let out := (get_lat_lng location (mkStore d tr)).1 in
    (∀ x, response = Raise x → out = Raise x)
    ∧ (∀ r, response = Ok r → ¬ is_success (status_code r) →
            out = Raise (HTTPStatusError (status_code r))
            ∧ is_soft_retry (HTTPStatusError (status_code r)) = false)
    ∧ (∀ r, response = Ok r → is_success (status_code r) → body r = None →
            out = Raise JSONDecodeError).
Proof.
  intros d tr location key Hkey response out. unfold out, response.
  rewrite (get_lat_lng_unfold d tr location key) by done.
  unfold geocode_params. cbn [fst]. split; [|split].
  - by intros x ->.
  - intros r Hr Hbad. rewrite Hr. by rewrite not_success_check.
  - intros r Hr Hok Hbody. rewrite Hr. apply is_success_check in Hok.
    by rewrite Hok, Hbody.
Qed.

Lemma get_lat_lng_request_failures_witness :
  let d := mkWeatherAgentDep
             (constant_client (Ok (mkHttpResponse 404 (Some (JList [])))))
             None (Some "g") in
  let response := client_get (client d) "https://geocode.maps.co/search"
                    [("q", "Delhi"); ("api_key", "g")] in
  let out := (get_lat_lng "Delhi" (mkStore d [])).1 in
  (∀ x, response = Raise x → out = Raise x)
  ∧ (∀ r, response = Ok r → ¬ is_success (status_code r) →
          out = Raise (HTTPStatusError (status_code r))
          ∧ is_soft_retry (HTTPStatusError (status_code r)) = false)
  ∧ (∀ r, response = Ok r → is_success (status_code r) → body r = None →
          out = Raise JSONDecodeError).
Proof.
  apply (get_lat_lng_request_failures
           (mkWeatherAgentDep
              (constant_client (Ok (mkHttpResponse 404 (Some (JList [])))))
              None (Some "g")) [] "Delhi" "g").
  reflexivity.
Defined.

Lemma py_getitem_str_Ok (v : JVal) (k : string) (x : JVal) :
  py_getitem_str v k = Ok x ↔ ∃ m, v = JObj m ∧ m !! k = Some x.
Proof.
  split.
  - destruct v as [| | | | |m]; cbn; try done.
    destruct (m !! k) eqn:E; [|done]. intros [= <-]. by exists m.
  - intros (m & -> & Hk). cbn. by rewrite Hk.
Qed.

Lemma py_getitem_int_0_Ok_object (data : JVal) (m : gmap string JVal) :
  py_truthy data = true →
  py_getitem_int data 0 = Ok (JObj m) →
  ∃ rest, data = JList (JObj m :: rest).
Proof.
  intros Ht. destruct data as [| |[z|f]|str|l|o]; try (cbn; done).
  - cbn. by destruct (0 <? _).
  - destruct l as [|e l]; [done|]. rewrite py_getitem_int_head.
    intros [= ->]. by exists l.
Qed.

(** X7. [get_lat_lng] returns a value only in one way: the key is there, the
    request was answered with a 2xx status and a JSON list whose first entry
    is an object with ["lat"] and ["lon"], and the value is the two-key
    mapping [{"lat": lat, "lng": lon}] of that entry's values. *)
Theorem get_lat_lng_success_inv :
  ∀ (d : WeatherAgentDep) (tr : list Event) (location : string) (v : JVal),
    (get_lat_lng location (mkStore d tr)).1 = Ok v →
    ∃ key r e rest lat lon,
      geo_api_key d = Some key
      ∧ client_get (client d) "https://geocode.maps.co/search"
          [("q", location); ("api_key", key)] = Ok r
      ∧ is_success (status_code r)
      ∧ body r = Some (JList (JObj e :: rest))
      ∧ e !! "lat" = Some lat
      ∧ e !! "lon" = Some lon
      ∧ v = JObj {[ "lat" := lat; "lng" := lon ]}.
Proof.
  intros d tr location v Hout.
  destruct (geo_api_key d) as [key|] eqn:Hkey.
  2:{ unfold get_lat_lng, bind, get_deps in Hout. cbn [deps] in Hout.
      by rewrite Hkey in Hout. }
  rewrite (get_lat_lng_unfold d tr location key) in Hout by done.
  unfold geocode_params in Hout. cbn [fst] in Hout.
  destruct (client_get _ _ _) as [r|x] eqn:Hget; [|done].
  destruct (_ && _) eqn:Hok; [|done]. apply is_success_check in Hok.
  destruct (body r) as [data|] eqn:Hbody; [|done].
  destruct (py_truthy data) eqn:Ht; [|done].
  destruct (py_getitem_int data 0) as [e|x] eqn:He; [|done].
  destruct (py_getitem_str e "lat") as [lat|] eqn:Hlat; [|done].
  destruct (py_getitem_str e "lon") as [lon|] eqn:Hlon; [|done].
  injection Hout as <-.
  apply py_getitem_str_Ok in Hlat as (m & -> & Hlat).
  apply py_getitem_str_Ok in Hlon as (m' & [= <-] & Hlon).
  apply py_getitem_int_0_Ok_object in He as [rest ->]; [|done].
  by exists key, r, m, rest, lat, lon.
Qed.

Lemma get_lat_lng_success_inv_witness :
  ∃ key r e rest lat lon,
    geo_api_key (mkWeatherAgentDep (geocoder_stub [JObj delhi_entry]) None (Some "k"))
    = Some key
    ∧ client_get
        (client (mkWeatherAgentDep (geocoder_stub [JObj delhi_entry]) None (Some "k")))
        "https://geocode.maps.co/search" [("q", "Delhi"); ("api_key", key)] = Ok r
    ∧ is_success (status_code r)
    ∧ body r = Some (JList (JObj e :: rest))
    ∧ e !! "lat" = Some lat
    ∧ e !! "lon" = Some lon
    ∧ JObj {[ "lat" := JStr "28.6"; "lng" := JStr "77.2" ]}
      = JObj {[ "lat" := lat; "lng" := lon ]}.
Proof.
  apply (get_lat_lng_success_inv
           (mkWeatherAgentDep (geocoder_stub [JObj delhi_entry]) None (Some "k"))
           [] "Delhi").
  reflexivity.
Defined.

(** X8. Only the first entry of the geocoding list matters, and an entry
    that lacks a coordinate is an error, not a retry: with a first entry
    without ["lat"] the handler raises [KeyError("lat")], with ["lat"] but
    without ["lon"] it raises [KeyError("lon")], and a first entry that is
    not an object raises [TypeError]; the entries after the first never
    change the outcome. *)
Theorem get_lat_lng_first_entry :
  ∀ (d : WeatherAgentDep) (tr : list Event) (location key : string)
    (status : Z) (first : JVal) (rest : list JVal),
    geo_api_key d = Some key →
    client_get (client d) "https://geocode.maps.co/search"
      [("q", location); ("api_key", key)]
      = Ok (mkHttpResponse status (Some (JList (first :: rest)))) →
    is_success status →
    let out := (get_lat_lng location (mkStore d tr)).1 in
    (∀ e, first = JObj e → e !! "lat" = None → out = Raise (KeyError (JStr "lat")))
    ∧ (∀ e lat, first = JObj e → e !! "lat" = Some lat → e !! "lon" = None →
         out = Raise (KeyError (JStr "lon")))
    ∧ ((∀ e, first ≠ JObj e) → out = Raise TypeError)
    ∧ (∀ d' tr' rest',
         geo_api_key d' = Some key →
         client_get (client d') "https://geocode.maps.co/search"
           [("q", location); ("api_key", key)]
           = Ok (mkHttpResponse status (Some (JList (first :: rest')))) →
         (get_lat_lng location (mkStore d' tr')).1 = out).
Proof.
  intros d tr location key status first rest Hkey Hget Hok out.
  assert (Hout : ∀ d1 tr1 rest1,
    geo_api_key d1 = Some key →
    client_get (client d1) "https://geocode.maps.co/search"
      [("q", location); ("api_key", key)]
      = Ok (mkHttpResponse status (Some (JList (first :: rest1)))) →
    (get_lat_lng location (mkStore d1 tr1)).1
    = match py_getitem_str first "lat", py_getitem_str first "lon" with
      | Ok lat, Ok lon => Ok (JObj {[ "lat" := lat; "lng" := lon ]})
      | Raise x, _ => Raise x
      | Ok _, Raise x => Raise x
      end).
  { intros d1 tr1 rest1 Hkey1 Hget1.
    rewrite (get_lat_lng_eval d1 tr1 location key status (JList (first :: rest1)))
      by done.
    by rewrite py_getitem_int_head. }
  unfold out. rewrite (Hout d tr rest) by done. repeat split.
  - intros e -> Hlat. cbn. by rewrite Hlat.
  - intros e lat -> Hlat Hlon. cbn. by rewrite Hlat, Hlon.
  - intros Hno. destruct first; try done. by destruct (Hno m).
  - intros d' tr' rest' Hkey' Hget'. by rewrite (Hout d' tr' rest').
Qed.

Lemma get_lat_lng_first_entry_witness :
  let d := mkWeatherAgentDep (geocoder_stub [JObj {[ "lat" := JStr "28.6" ]}; JNull])
             None (Some "k") in
  let out := (get_lat_lng "Delhi" (mkStore d [])).1 in
  (∀ e, JObj {[ "lat" := JStr "28.6" ]} = JObj e → e !! "lat" = None →
        out = Raise (KeyError (JStr "lat")))
  ∧ (∀ e lat, JObj {[ "lat" := JStr "28.6" ]} = JObj e →
        e !! "lat" = Some lat → e !! "lon" = None →
        out = Raise (KeyError (JStr "lon")))
  ∧ ((∀ e, JObj {[ "lat" := JStr "28.6" ]} ≠ JObj e) → out = Raise TypeError)
  ∧ (∀ d' tr' rest',
       geo_api_key d' = Some "k" →
       client_get (client d') "https://geocode.maps.co/search"
         [("q", "Delhi"); ("api_key", "k")]
         = Ok (mkHttpResponse 200
                 (Some (JList (JObj {[ "lat" := JStr "28.6" ]} :: rest')))) →
       (get_lat_lng "Delhi" (mkStore d' tr')).1 = out).
Proof.
  apply (get_lat_lng_first_entry
           (mkWeatherAgentDep
              (geocoder_stub [JObj {[ "lat" := JStr "28.6" ]}; JNull])
              None (Some "k"))
           [] "Delhi" "k" 200 (JObj {[ "lat" := JStr "28.6" ]}) [JNull]).
  - reflexivity.
  - reflexivity.
  - unfold is_success. lia.
Defined.

(** ** The weather tool *)

(** [get_weather] with a key, followed through every path. *)
Lemma get_weather_unfold (str_float : float → string) (d : WeatherAgentDep)
    (tr : list Event) (lat lng : float) (key : string) :
  weather_api_key d = Some key →
  let params := weather_params (str_float lat +:+ "," +:+ str_float lng) key in
  get_weather str_float lat lng (mkStore d tr) =
  (match client_get (client d) "https://api.tomorrow.io/v4/weather/realtime" params with
   | Raise x => Raise x
   | Ok r =>
       if (200 <=? status_code r) && (status_code r <=? 299) then
         match body r with
         | None => Raise JSONDecodeError
         | Some data =>
             match py_getitem_str data "data" with
             | Ok data_data =>
                 match py_getitem_str data_data "values" with
                 | Ok values =>
                     match py_getitem_str values "temperatureApparent" with
                     | Ok t =>
                         match py_format_f_val 0 t with
                         | Ok temperature =>
                             match py_getitem_str values "weatherCode" with
                             | Ok code =>
                                 match dict_get code_lookup code "Unknown" with
                                 | Ok description =>
                                     Ok (JObj {[ "temperature" := JStr (temperature +:+ "°C");
                                                 "description" := JStr description ]})
                                 | Raise x => Raise x
                                 end
                             | Raise x => Raise x
                             end
                         | Raise x => Raise x
                         end
                     | Raise x => Raise x
                     end
                 | Raise x => Raise x
                 end
             | Raise x => Raise x
             end
         end
       else Raise (HTTPStatusError (status_code r))
   end,
   mkStore d (tr ++ [HttpGet "https://api.tomorrow.io/v4/weather/realtime" params])).
Proof.
  intros Hkey params. unfold params, weather_params.
  unfold get_weather, http_get, json, raise_for_status.
  unfold bind at 1, get_deps. cbn [deps fst snd]. rewrite Hkey.
  run_eff.
  destruct (client_get _ _ _) as [r|x]; [|done].
  destruct (_ && _); [|done].
  destruct (body r) as [data|]; [|done].
  destruct (py_getitem_str data "data") as [dd|]; [|done].
  destruct (py_getitem_str dd "values") as [vs|]; [|done].
  destruct (py_getitem_str vs "temperatureApparent") as [t|]; [|done].
  destruct (py_format_f_val 0 t); [|done].
  destruct (py_getitem_str vs "weatherCode") as [c|]; [|done].
  by destruct (dict_get code_lookup c "Unknown").
Qed.

(** X9. With a key, [get_weather] sends exactly one request, whatever comes
    back: a GET of the realtime URL with the parameters [apikey] (the
    weather key), [location] (latitude and longitude joined by a comma) and
    [units=metric]; the dependency object is left as it was.  A transport
    failure is passed on, a status outside 2xx raises [HTTPStatusError], a
    2xx body that is not JSON raises [JSONDecodeError]. *)
Theorem get_weather_single_request :
  ∀ (str_float : float → string) (d : WeatherAgentDep) (tr : list Event)
    (lat lng : float) (key : string),
    weather_api_key d = Some key →
    let params := [ ("apikey", key);
                    ("location", str_float lat +:+ "," +:+ str_float lng);
                    ("units", "metric") ] in
    let response := client_get (client d)
                      "https://api.tomorrow.io/v4/weather/realtime" params in
    let res := get_weather str_float lat lng (mkStore d tr) in
    res.2 = mkStore d (tr ++ [HttpGet "https://api.tomorrow.io/v4/weather/realtime" params])
    ∧ (∀ x, response = Raise x → res.1 = Raise x)
    ∧ (∀ r, response = Ok r → ¬ is_success (status_code r) →
            res.1 = Raise (HTTPStatusError (status_code r)))
    ∧ (∀ r, response = Ok r → is_success (status_code r) → body r = None →
            res.1 = Raise JSONDecodeError).
Proof.
  intros str_float d tr lat lng key Hkey params response res.
  unfold res, response, params.
  rewrite (get_weather_unfold str_float d tr lat lng key) by done.
  unfold weather_params. cbn [fst snd]. split; [done|]. split; [|split].
  - by intros x ->.
  - intros r Hr Hbad. rewrite Hr. by rewrite not_success_check.
  - intros r Hr Hok Hbody. rewrite Hr. apply is_success_check in Hok.
    by rewrite Hok, Hbody.
Qed.

Lemma get_weather_single_request_witness :
  let str_float : float → string := λ _, "0.0" in
  let d := mkWeatherAgentDep (constant_client (Ok (mkHttpResponse 500 None)))
             (Some "w") (Some "g") in
  let params := [ ("apikey", "w");
                  ("location", str_float 0%float +:+ "," +:+ str_float 0%float);
                  ("units", "metric") ] in
  let response := client_get (client d)
                    "https://api.tomorrow.io/v4/weather/realtime" params in
  let res := get_weather str_float 0 0 (mkStore d []) in
  res.2 = mkStore d ([] ++ [HttpGet "https://api.tomorrow.io/v4/weather/realtime" params])
  ∧ (∀ x, response = Raise x → res.1 = Raise x)
  ∧ (∀ r, response = Ok r → ¬ is_success (status_code r) →
          res.1 = Raise (HTTPStatusError (status_code r)))
  ∧ (∀ r, response = Ok r → is_success (status_code r) → body r = None →
          res.1 = Raise JSONDecodeError).
Proof.
  apply (get_weather_single_request (λ _, "0.0")
           (mkWeatherAgentDep (constant_client (Ok (mkHttpResponse 500 None)))
              (Some "w") (Some "g")) [] 0 0 "w").
  reflexivity.
Defined.

Lemma dict_get_code_range (code : JVal) (description : string) :
  dict_get code_lookup code "Unknown" = Ok description →
  hashable code = true
  ∧ (description = "Unknown"
     ∨ ∃ z, key_int code = Some z ∧ code_lookup !! z = Some description).
Proof.
  unfold dict_get. destruct (hashable code); [|done]. intros [= <-].
  split; [done|]. destruct (key_int code) as [z|]; [|by left].
  cbn [mbind option_bind]. destruct (code_lookup !! z) as [s|] eqn:E; [|by left].
  right. by exists z.
Qed.

(** X10. [get_weather] returns a value only in one shape: a mapping with the
    two keys ["temperature"] and ["description"], where the temperature is
    the apparent temperature of the response formatted without decimals and
    followed by ["°C"], and the description is either an entry of the code
    table for the code of the response or ["Unknown"]. *)
Theorem get_weather_success_inv :
  ∀ (str_float : float → string) (d : WeatherAgentDep) (tr : list Event)
    (lat lng : float) (v : JVal),
    (get_weather str_float lat lng (mkStore d tr)).1 = Ok v →
    ∃ key r values t code temperature description,
      weather_api_key d = Some key
      ∧ client_get (client d) "https://api.tomorrow.io/v4/weather/realtime"
          [ ("apikey", key);
            ("location", str_float lat +:+ "," +:+ str_float lng);
            ("units", "metric") ] = Ok r
      ∧ is_success (status_code r)
      ∧ (∃ data data_data,
           body r = Some (JObj data)
           ∧ data !! "data" = Some (JObj data_data)
           ∧ data_data !! "values" = Some (JObj values))
      ∧ values !! "temperatureApparent" = Some t
      ∧ py_format_f_val 0 t = Ok temperature
      ∧ values !! "weatherCode" = Some code
      ∧ (description = "Unknown"
         ∨ ∃ z, key_int code = Some z ∧ code_lookup !! z = Some description)
      ∧ v = JObj {[ "temperature" := JStr (temperature +:+ "°C");
                    "description" := JStr description ]}.
Proof.
  intros str_float d tr lat lng v Hout.
  destruct (weather_api_key d) as [key|] eqn:Hkey.
  2:{ unfold get_weather, bind, get_deps in Hout. cbn [deps] in Hout.
      by rewrite Hkey in Hout. }
  rewrite (get_weather_unfold str_float d tr lat lng key) in Hout by done.
  unfold weather_params in Hout. cbn [fst] in Hout.
  destruct (client_get _ _ _) as [r|x] eqn:Hget; [|done].
  destruct (_ && _) eqn:Hok; [|done]. apply is_success_check in Hok.
  destruct (body r) as [data|] eqn:Hbody; [|done].
  destruct (py_getitem_str data "data") as [dd|] eqn:Hdd; [|done].
  destruct (py_getitem_str dd "values") as [vs|] eqn:Hvs; [|done].
  destruct (py_getitem_str vs "temperatureApparent") as [t|] eqn:Ht; [|done].
  destruct (py_format_f_val 0 t) as [temperature|] eqn:Hfmt; [|done].
  destruct (py_getitem_str vs "weatherCode") as [code|] eqn:Hcode; [|done].
  destruct (dict_get code_lookup code "Unknown") as [description|] eqn:Hdesc; [|done].
  injection Hout as <-.
  apply py_getitem_str_Ok in Hdd as (mdata & -> & Hdd).
  apply py_getitem_str_Ok in Hvs as (mdd & -> & Hvs).
  apply py_getitem_str_Ok in Ht as (values & -> & Ht).
  apply py_getitem_str_Ok in Hcode as (values' & [= <-] & Hcode).
  apply dict_get_code_range in Hdesc as [_ Hdesc].
  exists key, r, values, t, code, temperature, description.
  split_and!; try done. by exists mdata, mdd.
Qed.

Lemma get_weather_success_inv_witness :
  ∃ key r values t code temperature description,
    weather_api_key (mkWeatherAgentDep weather_stub (Some "k") None) = Some key
    ∧ client_get (client (mkWeatherAgentDep weather_stub (Some "k") None))
        "https://api.tomorrow.io/v4/weather/realtime"
        [ ("apikey", key);
          ("location", "0.0" +:+ "," +:+ "0.0");
          ("units", "metric") ] = Ok r
    ∧ is_success (status_code r)
    ∧ (∃ data data_data,
         body r = Some (JObj data)
         ∧ data !! "data" = Some (JObj data_data)
         ∧ data_data !! "values" = Some (JObj values))
    ∧ values !! "temperatureApparent" = Some t
    ∧ py_format_f_val 0 t = Ok temperature
    ∧ values !! "weatherCode" = Some code
    ∧ (description = "Unknown"
       ∨ ∃ z, key_int code = Some z ∧ code_lookup !! z = Some description)
    ∧ JObj {[ "temperature" := JStr "22°C"; "description" := JStr "Unknown" ]}
      = JObj {[ "temperature" := JStr (temperature +:+ "°C");
                "description" := JStr description ]}.
Proof.
  apply (get_weather_success_inv (λ _, "0.0")
           (mkWeatherAgentDep weather_stub (Some "k") None) [] 0 0).
  reflexivity.
Defined.

Lemma key_int_hashable (code : JVal) (z : Z) :
  key_int code = Some z → hashable code = true.
Proof. by destruct code. Qed.

(** X11. A weather code of the table is translated to its entry: when the
    code of a 2xx response carrying [data.values] (whatever else it holds)
    equals the integer [z] (as an integer, or as a float or boolean of that
    value) and the table maps [z] to a description, [get_weather] returns
    that description. *)
Theorem get_weather_known_code :
  ∀ (str_float : float → string) (d : WeatherAgentDep) (tr : list Event)
    (lat lng : float) (key : string) (r : HttpResponse)
    (data data_data values : gmap string JVal) (t code : JVal)
    (temperature : string) (z : Z) (description : string),
    weather_api_key d = Some key →
    client_get (client d) "https://api.tomorrow.io/v4/weather/realtime"
      [("apikey", key); ("location", str_float lat +:+ "," +:+ str_float lng);
       ("units", "metric")] = Ok r →
    is_success (status_code r) →
    body r = Some (JObj data) →
    data !! "data" = Some (JObj data_data) →
    data_data !! "values" = Some (JObj values) →
    values !! "temperatureApparent" = Some t →
    py_format_f_val 0 t = Ok temperature →
    values !! "weatherCode" = Some code →
    key_int code = Some z →
    code_lookup !! z = Some description →
    (get_weather str_float lat lng (mkStore d tr)).1
    = Ok (JObj {[ "temperature" := JStr (temperature +:+ "°C");
                  "description" := JStr description ]}).
Proof.
  intros str_float d tr lat lng key r data data_data values t code temperature
    z description Hkey Hget Hok Hbody Hdata Hvalues Ht Hfmt Hcode Hz Hdesc.
  destruct r as [status bd]. cbn [status_code body] in Hok, Hbody. subst bd.
  erewrite get_weather_eval by done.
  cbn [py_getitem_str]. rewrite Hdata. cbn [py_getitem_str]. rewrite Hvalues.
  cbn [py_getitem_str]. rewrite Ht, Hfmt, Hcode.
  unfold dict_get. rewrite (key_int_hashable code z Hz), Hz.
  cbn [mbind option_bind]. by rewrite Hdesc.
Qed.

Lemma get_weather_known_code_witness :
  (get_weather (λ _, "0.0") 0 0
     (mkStore (mkWeatherAgentDep (constant_client (Ok realtime_response))
                 (Some "k") None) [])).1
  = Ok (JObj {[ "temperature" := JStr ("30" +:+ "°C");
                "description" := JStr "Clear, Sunny" ]}).
Proof.
  apply (get_weather_known_code (λ _, "0.0")
           (mkWeatherAgentDep (constant_client (Ok realtime_response))
              (Some "k") None)
           [] 0 0 "k" realtime_response
           realtime_body realtime_data realtime_readings
           (JNum (PyInt 30)) (JNum (PyFloat 1000)) "30" 1000 "Clear, Sunny").
  - reflexivity.
  - reflexivity.
  - unfold is_success. simpl. lia.
  - reflexivity.
  - reflexivity.
  - reflexivity.
  - reflexivity.
  - reflexivity.
  - reflexivity.
  - reflexivity.
  - reflexivity.
Defined.



Lemma unique_second {A B : Type} (l : list (A * B)) (a a' : A) (b : B) :
  NoDup (l.*2) → (a, b) ∈ l → (a', b) ∈ l → a = a'.
Proof.
  induction l as [|[x y] l IH]; cbn [fmap list_fmap snd]; intros Hnd H1 H2.
  - by apply elem_of_nil in H1.
  - apply NoDup_cons in Hnd as [Hy Hnd].
    apply elem_of_cons in H1 as [H1|H1], H2 as [H2|H2]; simplify_eq.
    + done.
    + destruct Hy. apply list_elem_of_fmap. by exists (a', y).
    + destruct Hy. apply list_elem_of_fmap. by exists (a, y).
    + by apply IH.
Qed.

Lemma code_descriptions_distinct : NoDup ((map_to_list code_lookup).*2).
Proof. apply (bool_decide_unpack _). vm_compute. exact I. Qed.

Lemma unknown_not_a_description : "Unknown" ∉ (map_to_list code_lookup).*2.
Proof. apply (bool_decide_unpack _). vm_compute. exact I. Qed.

(** X13. The code table is one-to-one and ["Unknown"] is none of its
    descriptions: two codes with the same description are the same code, so
    a description of the table tells the code, and the translation yields
    ["Unknown"] exactly for the hashable values that equal no code of the
    table. *)
Theorem code_lookup_one_to_one :
  (∀ z z' description,
     code_lookup !! z = Some description →
     code_lookup !! z' = Some description → z = z')
  ∧ (∀ z, code_lookup !! z ≠ Some "Unknown")
  ∧ (∀ code,
       dict_get code_lookup code "Unknown" = Ok "Unknown"
       ↔ hashable code = true
         ∧ ∀ z, key_int code = Some z → code_lookup !! z = None).
Proof.
  assert (Hunk : ∀ z, code_lookup !! z ≠ Some "Unknown").
  { intros z Hz. apply unknown_not_a_description.
    apply list_elem_of_fmap. exists (z, "Unknown"). split; [done|].
    by apply elem_of_map_to_list. }
  split; [|split; [done|]].
  - intros z z' s Hz Hz'.
    apply (unique_second (map_to_list code_lookup) z z' s).
    + exact code_descriptions_distinct.
    + by apply elem_of_map_to_list.
    + by apply elem_of_map_to_list.
  - intros code. split.
    + intros Hget. destruct (dict_get_code_range code "Unknown" Hget) as [Hh _].
      split; [done|]. intros z Hz.
      unfold dict_get in Hget. rewrite Hh, Hz in Hget.
      cbn [mbind option_bind] in Hget.
      destruct (code_lookup !! z) as [s|] eqn:E; [|done].
      cbn [from_option id] in Hget. injection Hget as ->. by destruct (Hunk z).
    + intros [Hh Hout]. by apply dict_get_code_unknown.
Qed.

(** ** The dependencies built by [main] *)

(** X14. [main] wires each environment variable to its own tool.  With
    [GEO_API_KEY] unset, [get_lat_lng] raises [ValueError] without a
    request; with it set (to any string, the empty one included) the one
    request carries its value as [api_key].  Likewise [get_weather] and
    [WEATHER_API_KEY], sent as [apikey].  Neither tool reads the other's
    variable. *)
Theorem main_deps_keys :
  ∀ (str_float : float → string) (environ : gmap string string) (c : AsyncClient)
    (tr : list Event) (location : string) (lat lng : float),
    let d := main_deps environ c in
    (environ !! "GEO_API_KEY" = None →
       get_lat_lng location (mkStore d tr)
       = (Raise (ValueError "Geo API key is required"), mkStore d tr))
    ∧ (∀ key, environ !! "GEO_API_KEY" = Some key →
         (get_lat_lng location (mkStore d tr)).2
         = mkStore d (tr ++ [HttpGet "https://geocode.maps.co/search"
                               [("q", location); ("api_key", key)]]))
    ∧ (environ !! "WEATHER_API_KEY" = None →
         get_weather str_float lat lng (mkStore d tr)
         = (Raise (ValueError "Weather API key is required"), mkStore d tr))
    ∧ (∀ key, environ !! "WEATHER_API_KEY" = Some key →
         (get_weather str_float lat lng (mkStore d tr)).2
         = mkStore d (tr ++ [HttpGet "https://api.tomorrow.io/v4/weather/realtime"
                               [("apikey", key);
                                ("location", str_float lat +:+ "," +:+ str_float lng);
                                ("units", "metric")]])).
Proof.
  intros str_float environ c tr location lat lng d. split_and!.
  - intros Hkey. unfold get_lat_lng, bind, get_deps. cbn [deps].
    unfold d, main_deps, os_getenv. cbn [geo_api_key]. by rewrite Hkey.
  - intros key Hkey. by rewrite (get_lat_lng_unfold d tr location key).
  - intros Hkey. unfold get_weather, bind, get_deps. cbn [deps].
    unfold d, main_deps, os_getenv. cbn [weather_api_key]. by rewrite Hkey.
  - intros key Hkey. by rewrite (get_weather_unfold str_float d tr lat lng key).
Qed.

(** ** When the geocoding tool asks for a retry *)

(** C5 (as the code has it).  With a geo API key and a response to the
    geocoding request, [get_lat_lng] raises the soft-retry signal exactly
    when the status is 2xx and the decoded body is falsy, which an empty
    list is, and so are an empty object, [null], [0], [false] and the empty
    string; for a 2xx body that is a list, exactly when the list is empty.
    For a 2xx list whose first entry is an object carrying ["lat"] and
    ["lon"] it returns the mapping [{"lat": lat, "lng": lon}] of that
    entry's values. *)
Theorem get_lat_lng_retry_iff_falsy_body :
  ∀ (d : WeatherAgentDep) (tr : list Event) (location key : string)
    (r : HttpResponse),
    geo_api_key d = Some key →
    client_get (client d) "https://geocode.maps.co/search"
      [("q", location); ("api_key", key)] = Ok r →
    let out := (get_lat_lng location (mkStore d tr)).1 in
    ((∃ e, out = Raise e ∧ is_soft_retry e = true)
     ↔ is_success (status_code r)
       ∧ ∃ data, body r = Some data ∧ py_truthy data = false)
    ∧ (out = Raise (ModelRetry "Could not find the location")
       ↔ is_success (status_code r)
         ∧ ∃ data, body r = Some data ∧ py_truthy data = false)
    ∧ (∀ l, is_success (status_code r) → body r = Some (JList l) →
         (out = Raise (ModelRetry "Could not find the location") ↔ l = []))
    ∧ (∀ e rest lat lon,
         is_success (status_code r) →
         body r = Some (JList (JObj e :: rest)) →
         e !! "lat" = Some lat → e !! "lon" = Some lon →
         out = Ok (JObj {[ "lat" := lat; "lng" := lon ]})).
Proof.
  intros d tr location key r Hkey Hget out.
  assert (Hbad : ¬ is_success (status_code r) →
                 out = Raise (HTTPStatusError (status_code r))).
  { intros Hno. unfold out. rewrite (get_lat_lng_unfold d tr location key) by done.
    unfold geocode_params. cbn [fst]. by rewrite Hget, not_success_check. }
  assert (Hundecoded : is_success (status_code r) → body r = None →
                       out = Raise JSONDecodeError).
  { intros Hok Hbody. unfold out.
    rewrite (get_lat_lng_unfold d tr location key) by done.
    unfold geocode_params. cbn [fst]. rewrite Hget.
    apply is_success_check in Hok. by rewrite Hok, Hbody. }
  assert (Hsoft : (∃ e, out = Raise e ∧ is_soft_retry e = true)
                  ↔ is_success (status_code r)
                    ∧ ∃ data, body r = Some data ∧ py_truthy data = false).
  { destruct (decide (is_success (status_code r))) as [Hok|Hno].
    - destruct (body r) as [data|] eqn:Hbody.
      + destruct r as [status bd]. cbn [status_code body] in *. subst bd.
        unfold out.
        rewrite (get_lat_lng_retry_iff_falsy d tr location key status data)
          by done.
        split; [intros Hf; split; [done|by exists data]|].
        by intros [_ (data' & [= <-] & Hf)].
      + rewrite (Hundecoded Hok eq_refl). split.
        * by intros (e & [= <-] & Hs).
        * by intros [_ (data & Hd & _)].
    - rewrite (Hbad Hno). split.
      + by intros (e & [= <-] & Hs).
      + by intros [Hok _]. }
  assert (Hretry : out = Raise (ModelRetry "Could not find the location")
                   ↔ is_success (status_code r)
                     ∧ ∃ data, body r = Some data ∧ py_truthy data = false).
  { split.
    - intros Hout. apply Hsoft. by eexists.
    - intros [Hok (data & Hbody & Hf)].
      destruct r as [status bd]. cbn [status_code body] in *. subst bd.
      unfold out.
      rewrite (get_lat_lng_eval d tr location key status data) by done.
      by rewrite Hf. }
  split; [done|]. split; [done|]. split.
  - intros l Hok Hbody. rewrite Hretry. split.
    + intros [_ (data & Hd & Hf)]. rewrite Hbody in Hd. injection Hd as <-.
      by destruct l.
    + intros ->. split; [done|]. by exists (JList []).
  - intros e rest lat lon Hok Hbody Hlat Hlon.
    destruct r as [status bd]. cbn [status_code body] in *. subst bd.
    unfold out.
    rewrite (get_lat_lng_eval d tr location key status (JList (JObj e :: rest)))
      by done.
    rewrite py_getitem_int_head. cbn [py_truthy py_getitem_str].
    by rewrite Hlat, Hlon.
Qed.

Lemma get_lat_lng_retry_iff_falsy_body_witness :
  let r := mkHttpResponse 200 (Some (JList [JObj delhi_entry])) in
  let out := (get_lat_lng "Delhi"
                (mkStore (mkWeatherAgentDep (geocoder_stub [JObj delhi_entry])
                            None (Some "k")) [])).1 in
  ((∃ e, out = Raise e ∧ is_soft_retry e = true)
   ↔ is_success (status_code r)
     ∧ ∃ data, body r = Some data ∧ py_truthy data = false)
  ∧ (out = Raise (ModelRetry "Could not find the location")
     ↔ is_success (status_code r)
       ∧ ∃ data, body r = Some data ∧ py_truthy data = false)
  ∧ (∀ l, is_success (status_code r) → body r = Some (JList l) →
       (out = Raise (ModelRetry "Could not find the location") ↔ l = []))
  ∧ (∀ e rest lat lon,
       is_success (status_code r) →
       body r = Some (JList (JObj e :: rest)) →
       e !! "lat" = Some lat → e !! "lon" = Some lon →
       out = Ok (JObj {[ "lat" := lat; "lng" := lon ]})).
Proof.
  apply (get_lat_lng_retry_iff_falsy_body
           (mkWeatherAgentDep (geocoder_stub [JObj delhi_entry]) None (Some "k"))
           [] "Delhi" "k" (mkHttpResponse 200 (Some (JList [JObj delhi_entry])))).
  - reflexivity.
  - reflexivity.
Defined.

(** Two responses on which the handler does not do what an "empty list"
    reading expects: a 2xx body that is an empty object is no empty list,
    yet the handler asks for a retry; and a 2xx non-empty list whose first
    entry has no ["lon"] is answered with [KeyError], not with a mapping. *)
Lemma get_lat_lng_retry_on_empty_object :
  (get_lat_lng "Delhi"
     (mkStore (mkWeatherAgentDep
                 (constant_client (Ok (mkHttpResponse 200 (Some (JObj ∅)))))
                 None (Some "k")) [])).1
  = Raise (ModelRetry "Could not find the location")
  ∧ JObj ∅ ≠ JList []
  ∧ (get_lat_lng "Delhi"
       (mkStore (mkWeatherAgentDep
                   (geocoder_stub [JObj {[ "lat" := JStr "28.6" ]}])
                   None (Some "k")) [])).1
    = Raise (KeyError (JStr "lon")).
Proof. split; [reflexivity|]. split; [discriminate|reflexivity]. Qed.
